(** * MissMixed: the orchestration of missmixed/miss_mixed.py

    A shallow embedding of the class [MissMixed] (construction, cleaning,
    categorical encoding, the stage loop, the per-column train / evaluate /
    select step, the best-score gate, early stopping and result assembly),
    followed by the properties of the specification that are settled on it.

    Conventions of the embedding.
    - A Python float is a value of [Float.t]: NaN, the two infinities, or a
      finite number kept as an exact rational.  Rounding and signed zeroes
      are not represented; every operation the class itself performs on
      scores (multiplication by the direction +1 / -1 and [<]) is exact on
      IEEE floats as well.
    - A pandas DataFrame is a list of labelled columns; rows are identified
      by position (the default RangeIndex).
    - Methods of the class are computations in the monad [M]: they read and
      update the object ([self]) and either return or raise.
    - scikit-learn, the estimators of the stage sequence and
      [missmixed.utils] are collaborators: they are fields of [Library] and
      [Imputer], called but not defined here, except [LabelEncoder], which
      is written out. *)

From stdpp Require Import base numbers list strings gmap sorting.
From Stdlib Require Import QArith Qcanon Qround.

Local Open Scope Z_scope.

(** ** Floats *)

Module Float.

Inductive t := NaN | NInf | PInf | Fin (q : Qc).

#[global] Instance eq_dec : EqDecision t.
Proof. solve_decision. Defined.

Definition of_Z (z : Z) : t := Fin (Qc_of_Z z).

Definition isnan (a : t) : bool :=
  match a with NaN => true | _ => false end.

(** [a < b] as Python evaluates it: false as soon as one side is NaN. *)
Definition ltb (a b : t) : bool :=
  match a, b with
  | NaN, _ | _, NaN => false
  | NInf, NInf => false
  | NInf, _ => true
  | _, NInf => false
  | PInf, _ => false
  | Fin _, PInf => true
  | Fin x, Fin y => bool_decide (x < y)%Qc
  end.

(** The sign of a float that is not NaN. *)
Definition sign (a : t) : comparison :=
  match a with
  | NaN => Eq
  | NInf => Lt
  | PInf => Gt
  | Fin q => (q ?= 0)%Qc
  end.

Definition signed_inf (s1 s2 : comparison) : t :=
  match s1, s2 with
  | Eq, _ | _, Eq => NaN
  | Lt, Lt | Gt, Gt => PInf
  | _, _ => NInf
  end.

Definition mul (a b : t) : t :=
  match a, b with
  | NaN, _ | _, NaN => NaN
  | Fin x, Fin y => Fin (x * y)
  | _, _ => signed_inf (sign a) (sign b)
  end.

Definition opp (a : t) : t :=
  match a with
  | NaN => NaN
  | NInf => PInf
  | PInf => NInf
  | Fin q => Fin (- q)
  end.

Definition sub (a b : t) : t :=
  match a, b with
  | NaN, _ | _, NaN => NaN
  | Fin x, Fin y => Fin (x - y)
  | PInf, PInf | NInf, NInf => NaN
  | PInf, _ | _, NInf => PInf
  | NInf, _ | _, PInf => NInf
  end.

(** numpy's float division: [0/0] is NaN, [x/0] is an infinity. *)
Definition div (a b : t) : t :=
  match a, b with
  | NaN, _ | _, NaN => NaN
  | Fin x, Fin y =>
      if decide (y = 0%Qc)
      then signed_inf (sign a) Gt
      else Fin (x / y)
  | Fin _, _ => Fin 0%Qc
  | _, Fin _ =>
      signed_inf (sign a) (match sign b with Eq => Gt | s => s end)
  | _, _ => NaN
  end.

(** [np.maximum]: NaN propagates. *)
Definition maximum (a b : t) : t :=
  match a, b with
  | NaN, _ | _, NaN => NaN
  | _, _ => if ltb a b then b else a
  end.

(** [Series.min()] and [Series.max()] skip NaN and give NaN when nothing
    is left. *)
Definition min_skipna (l : list t) : t :=
  foldr (λ x acc, if isnan x then acc
                  else if isnan acc then x
                  else if ltb x acc then x else acc) NaN l.

Definition max_skipna (l : list t) : t :=
  foldr (λ x acc, if isnan x then acc
                  else if isnan acc then x
                  else if ltb acc x then x else acc) NaN l.

(** Truncation towards zero, as [astype('int64')] does on a finite
    float. *)
Definition trunc (q : Qc) : Z :=
  if bool_decide (q < 0)%Qc then Qceiling q else Qfloor q.

(** The order of the extended reals; NaN is related to nothing. *)
Definition lt (a b : t) : Prop :=
  match a, b with
  | NInf, PInf | NInf, Fin _ | Fin _, PInf => True
  | Fin x, Fin y => (x < y)%Qc
  | _, _ => False
  end.

End Float.

(** ** Values, tables and exceptions *)

(** A cell of a DataFrame: a float (NaN is the missing value) or a string. *)
Inductive cell := Num (x : Float.t) | Str (s : string).

#[global] Instance cell_eq_dec : EqDecision cell.
Proof. solve_decision. Defined.

Definition isna (c : cell) : bool :=
  match c with Num Float.NaN => true | _ => false end.

Definition notna (c : cell) : bool := negb (isna c).

(** A DataFrame: its columns, in order, each with its label.  Labels are
    integers, as those of a table read without a header are; they need be
    neither the positions nor distinct. *)
Definition DataFrame := list (Z * list cell).

Inductive exn :=
  | InvalidMetric (metric : string)   (* the ValueError of __init_metrics *)
  | ValueError
  | IndexError
  | KeyError
  | TypeError
  | ZeroDivisionError.

#[global] Instance exn_eq_dec : EqDecision exn.
Proof. solve_decision. Defined.

Inductive res (A : Type) := OK (a : A) | Raise (e : exn).
Arguments OK {A} a.
Arguments Raise {A} e.

#[global] Instance res_eq_dec `{EqDecision A} : EqDecision (res A).
Proof. solve_decision. Defined.

#[global] Instance res_ret : MRet res := @OK.
#[global] Instance res_bind : MBind res := λ A B k r,
  match r with OK a => k a | Raise e => Raise e end.
#[global] Instance res_fmap : FMap res := λ A B f r,
  match r with OK a => OK (f a) | Raise e => Raise e end.

Definition of_option {A} (e : exn) (o : option A) : res A :=
  match o with Some a => OK a | None => Raise e end.

Fixpoint res_mapM {A B} (f : A → res B) (l : list A) : res (list B) :=
  match l with
  | [] => OK []
  | x :: l => y ← f x; ys ← res_mapM f l; OK (y :: ys)
  end.

(** ** Python lists *)

(** [del l[i]]: a negative index counts from the end; out of range raises
    IndexError. *)
Definition py_del {A} (l : list A) (i : Z) : res (list A) :=
  let n := Z.of_nat (length l) in
  let j := if bool_decide (i < 0) then i + n else i in
  if bool_decide (0 ≤ j < n) then OK (delete (Z.to_nat j) l)
  else Raise IndexError.

(** [l[start:]]. *)
Definition py_slice_from {A} (l : list A) (start : Z) : list A :=
  let n := Z.of_nat (length l) in
  let s := if bool_decide (start < 0) then Z.max 0 (start + n)
           else Z.min start n in
  drop (Z.to_nat s) l.

(** [np.argmax]: the first position of the greatest element, where NaN
    counts as the greatest; ValueError on an empty sequence. *)
Fixpoint argmax_from (i best_i : nat) (best : Float.t) (l : list Float.t) : nat :=
  match l with
  | [] => best_i
  | x :: l =>
      if Float.isnan best then best_i
      else if Float.isnan x || Float.ltb best x
           then argmax_from (S i) i x l
           else argmax_from (S i) best_i best l
  end.

Definition argmax (l : list Float.t) : res nat :=
  match l with
  | [] => Raise ValueError
  | x :: l => OK (argmax_from 1 0 x l)
  end.

(** ** sklearn.preprocessing.LabelEncoder *)

Module LabelEncoder.

Record t := Build { classes_ : list cell }.

Definition is_str (c : cell) : bool :=
  match c with Str _ => true | Num _ => false end.

(** Values of one kind only, as the encoder requires. *)
Definition uniform (vals : list cell) : bool :=
  forallb is_str vals || forallb (λ c, negb (is_str c)) vals.

Definition cell_le (a b : cell) : Prop :=
  match a, b with
  | Str s1, Str s2 => String.le s1 s2
  | Num x, Num y => Float.ltb y x = false
  | Num _, Str _ => True
  | Str _, Num _ => False
  end.

#[global] Instance cell_le_dec : RelDecision cell_le.
Proof. intros [x|s1] [y|s2]; simpl; apply _. Defined.

(** Modelled from the spec: scikit-learn's LabelEncoder is not part of the
    sources.  "Per categorical column, a bijection between observed
    original values and dense integers [0, k)": [classes_] holds the
    distinct observed values in sorted order, a value is encoded as its
    position in [classes_] and a code is decoded by looking that position
    up. *)
Definition fit (vals : list cell) : res t :=
  if uniform vals
  then OK (Build (remove_dups (merge_sort cell_le vals)))
  else Raise TypeError.

(** Modelled from the spec: [transform] of the absent LabelEncoder, on one
    value: its position in [classes_]; a value never observed is refused. *)
Definition encode_one (enc : t) (v : cell) : res cell :=
  match list_find (λ c, c = v) (classes_ enc) with
  | Some (i, _) => OK (Num (Float.of_Z (Z.of_nat i)))
  | None => Raise ValueError
  end.

Definition transform (enc : t) (vals : list cell) : res (list cell) :=
  res_mapM (encode_one enc) vals.

Definition fit_transform (vals : list cell) : res (t * list cell) :=
  enc ← fit vals; codes ← transform enc vals; OK (enc, codes).

(** Modelled from the spec: [inverse_transform] of the absent LabelEncoder,
    on one code: the value at that position of [classes_]; a code outside
    [0, k) is refused. *)
Definition decode_one (enc : t) (code : Z) : res cell :=
  if bool_decide (0 ≤ code)
  then of_option ValueError (classes_ enc !! Z.to_nat code)
  else Raise ValueError.

Definition inverse_transform (enc : t) (codes : list Z) : res (list cell) :=
  res_mapM (decode_one enc) codes.

End LabelEncoder.

(** [Series.astype('int64')] on one cell. *)
Definition astype_int64 (c : cell) : res Z :=
  match c with
  | Num (Float.Fin q) => OK (Float.trunc q)
  | _ => Raise ValueError
  end.

(** ** Collaborators *)

Inductive strategy := mean | median | most_frequent | constant.

(** The metric functions the class chooses from. *)
Inductive metric_fn := r2_score | accuracy_score | mean_squared_error.

(** A feature matrix as the estimators receive it: one list per row. *)
Definition rows := list (list cell).

(** A fitted model is what [predict] does with it. *)
Definition Fitted := rows → res (list Float.t).

(** An estimator: [fit] on a training set; the first argument is the number
    of the trial, which stands for whatever makes two fits of the same data
    differ. *)
Record Estimator := { fit : nat → rows → list cell → res Fitted }.

(** A stage of the sequence (missmixed.architecture): [set_model] selects
    the estimator for a categorical or a numerical target, if the stage has
    one, and [trials] is the number of fits per column. *)
Record Imputer := {
  set_model : bool → option Estimator;
  trials : nat
}.

(** [SharedData] of missmixed.utils: a store of named values. *)
Record SharedData := {
  sd_categorical_columns : list bool;
  sd_category_counts : list nat;
  sd_processing_col_idx : option nat;
  sd_is_categorical : option bool
}.

Record train_test := {
  x_train : rows; y_train : list cell;
  x_test : rows; y_test : list cell
}.

(** What the module imports and calls: scikit-learn's initial fill and
    metrics, and [train_test_split] and [SharedData.is_categorical] of
    missmixed.utils, whose sources are not at hand. *)
Record Library := {
  SimpleImputer_fit_transform : strategy → list (list cell) → res (list (list cell));
  call_metric : metric_fn → list cell → list Float.t → res Float.t;
  train_test_split : rows → list cell → Float.t → res train_test;
  SharedData_is_categorical : SharedData → bool
}.

(** ** The object *)

(** What the run prints, and which collaborators it calls, in order.  A
    message stands for the line that is printed; the rendering of its text
    (the name of the metric, the averages of the scores) is not part of
    the embedding, nor is the progress bar. *)
Inductive event :=
  | MsgColumnsDropped (labels : list Z)
  | MsgIteration (i n : nat)
  | MsgColumnsUpdated (count : nat)
  | MsgRule
  | MsgEarlyStopping
  | MsgNoModel
  | MsgImputingColumn (i n : nat)
  | MsgNoNull
  | MsgAverage
  | MsgBest (train val : Float.t)
  | MsgColumnUpdated
  | CallLabelEncoder (col_idx : nat)
  | CallSimpleImputer
  | CallSplit (col_idx : nat)
  | CallFit (col_idx trial : nat)
  | CallPredict (col_idx : nat).

#[global] Instance event_eq_dec : EqDecision event.
Proof. solve_decision. Defined.

Record MissMixed := {
  raw_data : DataFrame;
  working_data : DataFrame;
  sequential : list Imputer;
  categorical_columns : list bool;
  train_size : Float.t;
  verbose : nat;
  early_stopping : bool;
  iter_per_stopping : Z;
  tolerance_percentage : Float.t;
  shared : SharedData;
  column_to_encoder : gmap nat LabelEncoder.t;
  num_of_columns : nat;
  imputed_df : list (list cell);
  metric_direction : Z;
  non_categorical_metric : metric_fn;
  categorical_metric : metric_fn;
  max_metric_tests : list Float.t;
  metric : metric_fn;
  trace : list event
}.

(** Assignments to the attributes that change after the first lines of
    [__init__]. *)
Definition with_working_data (v : DataFrame) (s : MissMixed) : MissMixed :=
  {| raw_data := raw_data s; working_data := v; sequential := sequential s;
     categorical_columns := categorical_columns s; train_size := train_size s;
     verbose := verbose s; early_stopping := early_stopping s;
     iter_per_stopping := iter_per_stopping s;
     tolerance_percentage := tolerance_percentage s; shared := shared s;
     column_to_encoder := column_to_encoder s;
     num_of_columns := num_of_columns s; imputed_df := imputed_df s;
     metric_direction := metric_direction s;
     non_categorical_metric := non_categorical_metric s;
     categorical_metric := categorical_metric s;
     max_metric_tests := max_metric_tests s; metric := metric s;
     trace := trace s |}.

Definition with_categorical_columns (v : list bool) (s : MissMixed) : MissMixed :=
  {| raw_data := raw_data s; working_data := working_data s;
     sequential := sequential s;
     categorical_columns := v; train_size := train_size s;
     verbose := verbose s; early_stopping := early_stopping s;
     iter_per_stopping := iter_per_stopping s;
     tolerance_percentage := tolerance_percentage s; shared := shared s;
     column_to_encoder := column_to_encoder s;
     num_of_columns := num_of_columns s; imputed_df := imputed_df s;
     metric_direction := metric_direction s;
     non_categorical_metric := non_categorical_metric s;
     categorical_metric := categorical_metric s;
     max_metric_tests := max_metric_tests s; metric := metric s;
     trace := trace s |}.

Definition with_shared (v : SharedData) (s : MissMixed) : MissMixed :=
  {| raw_data := raw_data s; working_data := working_data s;
     sequential := sequential s;
     categorical_columns := categorical_columns s; train_size := train_size s;
     verbose := verbose s; early_stopping := early_stopping s;
     iter_per_stopping := iter_per_stopping s;
     tolerance_percentage := tolerance_percentage s; shared := v;
     column_to_encoder := column_to_encoder s;
     num_of_columns := num_of_columns s; imputed_df := imputed_df s;
     metric_direction := metric_direction s;
     non_categorical_metric := non_categorical_metric s;
     categorical_metric := categorical_metric s;
     max_metric_tests := max_metric_tests s; metric := metric s;
     trace := trace s |}.

Definition with_column_to_encoder (v : gmap nat LabelEncoder.t) (s : MissMixed) : MissMixed :=
  {| raw_data := raw_data s; working_data := working_data s;
     sequential := sequential s;
     categorical_columns := categorical_columns s; train_size := train_size s;
     verbose := verbose s; early_stopping := early_stopping s;
     iter_per_stopping := iter_per_stopping s;
     tolerance_percentage := tolerance_percentage s; shared := shared s;
     column_to_encoder := v;
     num_of_columns := num_of_columns s; imputed_df := imputed_df s;
     metric_direction := metric_direction s;
     non_categorical_metric := non_categorical_metric s;
     categorical_metric := categorical_metric s;
     max_metric_tests := max_metric_tests s; metric := metric s;
     trace := trace s |}.

Definition with_num_of_columns (v : nat) (s : MissMixed) : MissMixed :=
  {| raw_data := raw_data s; working_data := working_data s;
     sequential := sequential s;
     categorical_columns := categorical_columns s; train_size := train_size s;
     verbose := verbose s; early_stopping := early_stopping s;
     iter_per_stopping := iter_per_stopping s;
     tolerance_percentage := tolerance_percentage s; shared := shared s;
     column_to_encoder := column_to_encoder s;
     num_of_columns := v; imputed_df := imputed_df s;
     metric_direction := metric_direction s;
     non_categorical_metric := non_categorical_metric s;
     categorical_metric := categorical_metric s;
     max_metric_tests := max_metric_tests s; metric := metric s;
     trace := trace s |}.

Definition with_imputed_df (v : list (list cell)) (s : MissMixed) : MissMixed :=
  {| raw_data := raw_data s; working_data := working_data s;
     sequential := sequential s;
     categorical_columns := categorical_columns s; train_size := train_size s;
     verbose := verbose s; early_stopping := early_stopping s;
     iter_per_stopping := iter_per_stopping s;
     tolerance_percentage := tolerance_percentage s; shared := shared s;
     column_to_encoder := column_to_encoder s;
     num_of_columns := num_of_columns s; imputed_df := v;
     metric_direction := metric_direction s;
     non_categorical_metric := non_categorical_metric s;
     categorical_metric := categorical_metric s;
     max_metric_tests := max_metric_tests s; metric := metric s;
     trace := trace s |}.

Definition with_metrics (d : Z) (num cat : metric_fn) (s : MissMixed) : MissMixed :=
  {| raw_data := raw_data s; working_data := working_data s;
     sequential := sequential s;
     categorical_columns := categorical_columns s; train_size := train_size s;
     verbose := verbose s; early_stopping := early_stopping s;
     iter_per_stopping := iter_per_stopping s;
     tolerance_percentage := tolerance_percentage s; shared := shared s;
     column_to_encoder := column_to_encoder s;
     num_of_columns := num_of_columns s; imputed_df := imputed_df s;
     metric_direction := d;
     non_categorical_metric := num;
     categorical_metric := cat;
     max_metric_tests := max_metric_tests s; metric := metric s;
     trace := trace s |}.

Definition with_max_metric_tests (v : list Float.t) (s : MissMixed) : MissMixed :=
  {| raw_data := raw_data s; working_data := working_data s;
     sequential := sequential s;
     categorical_columns := categorical_columns s; train_size := train_size s;
     verbose := verbose s; early_stopping := early_stopping s;
     iter_per_stopping := iter_per_stopping s;
     tolerance_percentage := tolerance_percentage s; shared := shared s;
     column_to_encoder := column_to_encoder s;
     num_of_columns := num_of_columns s; imputed_df := imputed_df s;
     metric_direction := metric_direction s;
     non_categorical_metric := non_categorical_metric s;
     categorical_metric := categorical_metric s;
     max_metric_tests := v; metric := metric s;
     trace := trace s |}.

Definition with_metric (v : metric_fn) (s : MissMixed) : MissMixed :=
  {| raw_data := raw_data s; working_data := working_data s;
     sequential := sequential s;
     categorical_columns := categorical_columns s; train_size := train_size s;
     verbose := verbose s; early_stopping := early_stopping s;
     iter_per_stopping := iter_per_stopping s;
     tolerance_percentage := tolerance_percentage s; shared := shared s;
     column_to_encoder := column_to_encoder s;
     num_of_columns := num_of_columns s; imputed_df := imputed_df s;
     metric_direction := metric_direction s;
     non_categorical_metric := non_categorical_metric s;
     categorical_metric := categorical_metric s;
     max_metric_tests := max_metric_tests s; metric := v;
     trace := trace s |}.

Definition with_trace (v : list event) (s : MissMixed) : MissMixed :=
  {| raw_data := raw_data s; working_data := working_data s;
     sequential := sequential s;
     categorical_columns := categorical_columns s; train_size := train_size s;
     verbose := verbose s; early_stopping := early_stopping s;
     iter_per_stopping := iter_per_stopping s;
     tolerance_percentage := tolerance_percentage s; shared := shared s;
     column_to_encoder := column_to_encoder s;
     num_of_columns := num_of_columns s; imputed_df := imputed_df s;
     metric_direction := metric_direction s;
     non_categorical_metric := non_categorical_metric s;
     categorical_metric := categorical_metric s;
     max_metric_tests := max_metric_tests s; metric := metric s;
     trace := v |}.

(** ** The monad of methods: state and exceptions *)

Definition M (A : Type) : Type := MissMixed → res A * MissMixed.

#[global] Instance M_ret : MRet M := λ A a s, (OK a, s).
#[global] Instance M_bind : MBind M := λ A B k m s,
  match m s with
  | (OK a, s') => k a s'
  | (Raise e, s') => (Raise e, s')
  end.

Definition raise {A} (e : exn) : M A := λ s, (Raise e, s).
Definition gets {A} (f : MissMixed → A) : M A := λ s, (OK (f s), s).
Definition modify (f : MissMixed → MissMixed) : M unit := λ s, (OK (), f s).
Definition lift {A} (r : res A) : M A := λ s, (r, s).

(** [for x in l: body]. *)
Fixpoint for_ {A} (l : list A) (body : A → M unit) : M unit :=
  match l with
  | [] => mret ()
  | x :: l => body x;; for_ l body
  end.

(** A loop that carries a local variable. *)
Fixpoint for_acc {A B} (l : list A) (acc : B) (body : A → B → M B) : M B :=
  match l with
  | [] => mret acc
  | x :: l => acc' ← body x acc; for_acc l acc' body
  end.

Definition emit (e : event) : M unit :=
  modify (λ s, with_trace (trace s ++ [e]) s).

(** [self._log(level, ...)]. *)
Definition _log (level : nat) (e : event) : M unit :=
  v ← gets verbose;
  if bool_decide (level ≤ v)%nat then emit e else mret ().

Definition acceptable_metrics : list string := ["r2_accuracy"; "mse"]%string.

(** ** Table helpers *)

Definition non_null_count (col : list cell) : nat :=
  length (filter (λ c, notna c = true) col).

(** Positions of the cells of a column that satisfy [p]. *)
Definition positions (p : cell → bool) (col : list cell) : list nat :=
  (filter (λ ic, p ic.2 = true) (imap pair col)).*1.

(** [col[mask] = vals] for [mask = col.notna()]. *)
Fixpoint assign_notna (col vals : list cell) : list cell :=
  match col with
  | [] => []
  | c :: col =>
      if notna c
      then match vals with
           | v :: vals => v :: assign_notna col vals
           | [] => c :: assign_notna col []
           end
      else c :: assign_notna col vals
  end.

(** [df.loc[index]] on a frame kept by columns: the rows at the given
    positions; KeyError if a position is absent. *)
Definition row_at (cols : list (list cell)) (i : nat) : res (list cell) :=
  res_mapM (λ col, of_option KeyError (col !! i)) cols.

Definition loc_rows (cols : list (list cell)) (index : list nat) : res rows :=
  res_mapM (row_at cols) index.

(** [col.loc[index] = values]. *)
Fixpoint loc_assign (col : list cell) (index : list nat) (values : list Float.t)
  : res (list cell) :=
  match index, values with
  | [], [] => OK col
  | i :: index, v :: values =>
      if bool_decide (i < length col)%nat
      then loc_assign (<[i := Num v]> col) index values
      else Raise KeyError
  | _, _ => Raise ValueError
  end.

Definition as_floats (col : list cell) : res (list Float.t) :=
  res_mapM (λ c, match c with Num x => OK x | Str _ => Raise TypeError end) col.

(** [((col - col_min) / (col_max - col_min)) * 10]. *)
Definition min_max_scale (col : list cell) : res (list cell) :=
  xs ← as_floats col;
  let col_min := Float.min_skipna xs in
  let col_max := Float.max_skipna xs in
  OK (map (λ x, Num (Float.mul (Float.div (Float.sub x col_min)
                                          (Float.sub col_max col_min))
                               (Float.of_Z 10))) xs).

Definition columns_to_be_dropped (df : DataFrame) : list Z :=
  (filter (λ c, (non_null_count c.2 ≤ 1)%nat) df).*1.

(** [df.drop(columns=labels)]: by label. *)
Definition drop_columns (labels : list Z) (df : DataFrame) : DataFrame :=
  filter (λ c, c.1 ∉ labels) df.

Record impute_dataset := { imp_x : rows; imp_y_index : list nat }.

Record column_score := { cs_train : list Float.t; cs_val : list Float.t }.

Record trial_result := { tr_train : Float.t; tr_val : Float.t; tr_model : Fitted }.

(** ** The methods of [MissMixed] *)

Section methods.

Context (lib : Library).

(** [MissMixed.__clean_working_data].  The flags are deleted with the
    labels of the dropped columns used as list positions, in the order of
    the columns, each deletion on the list the previous one left. *)
Definition __clean_working_data : M unit :=
  wd ← gets working_data;
  let dropped := columns_to_be_dropped wd in
  for_ dropped (λ i,
    flags ← gets categorical_columns;
    flags' ← lift (py_del flags i);
    modify (with_categorical_columns flags'));;
  (if bool_decide (1 ≤ length dropped)%nat
   then _log 0 (MsgColumnsDropped dropped) else mret ());;
  modify (with_working_data (drop_columns dropped wd)).

(** The body of the loop of [__process_categorical_data];
    [category_counts] is the local list of that name.  The encoded values
    are written into the observed places of the column itself. *)
Definition encode_column (step : nat * bool) (category_counts : list nat)
  : M (list nat) :=
  let col_idx := step.1 in
  if step.2 then
    wd ← gets working_data;
    col ← lift (of_option IndexError (wd !! col_idx));
    emit (CallLabelEncoder col_idx);;
    '(encoder, codes) ←
      lift (LabelEncoder.fit_transform (filter (λ c, notna c = true) col.2));
    modify (with_working_data
              (<[col_idx := (col.1, assign_notna col.2 codes)]> wd));;
    modify (λ s, with_column_to_encoder
                   (<[col_idx := encoder]> (column_to_encoder s)) s);;
    mret (<[col_idx := length (LabelEncoder.classes_ encoder)]> category_counts)
  else mret category_counts.

(** [MissMixed.__process_categorical_data]. *)
Definition __process_categorical_data : M unit :=
  modify (with_column_to_encoder ∅);;
  wd0 ← gets working_data;
  flags ← gets categorical_columns;
  category_counts ←
    for_acc (imap pair flags) (replicate (length wd0) 1%nat) encode_column;
  modify (λ s, with_shared
    {| sd_categorical_columns := categorical_columns s;
       sd_category_counts := category_counts;
       sd_processing_col_idx := sd_processing_col_idx (shared s);
       sd_is_categorical := sd_is_categorical (shared s) |} s).

(** [MissMixed.__init_metrics]. *)
Definition __init_metrics (metric : string) : M unit :=
  if bool_decide (metric ∉ acceptable_metrics) then raise (InvalidMetric metric)
  else
    let r2 := bool_decide (metric = "r2_accuracy"%string) in
    modify (with_metrics (if r2 then 1 else -1)
              (if r2 then r2_score else mean_squared_error)
              (if r2 then accuracy_score else mean_squared_error));;
    n ← gets num_of_columns;
    d ← gets metric_direction;
    modify (with_max_metric_tests
              (replicate n (Float.mul Float.NInf (Float.of_Z d)))).

(** The object as the first lines of [__init__] leave it; the attributes
    assigned further down hold a placeholder until then (none of them is
    read before it is assigned). *)
Definition new (raw_data : DataFrame) (sequential : list Imputer)
    (categorical_columns : list bool) (train_size : Float.t)
    (early_stopping : bool) (iter_per_stopping : Z)
    (tolerance_percentage : Float.t) (verbose : nat) : MissMixed :=
  {| raw_data := raw_data; working_data := raw_data;
     sequential := sequential; categorical_columns := categorical_columns;
     train_size := train_size; verbose := verbose;
     early_stopping := early_stopping;
     iter_per_stopping := iter_per_stopping;
     tolerance_percentage := tolerance_percentage;
     shared := {| sd_categorical_columns := []; sd_category_counts := [];
                  sd_processing_col_idx := None; sd_is_categorical := None |};
     column_to_encoder := ∅; num_of_columns := 0; imputed_df := [];
     metric_direction := 0; non_categorical_metric := r2_score;
     categorical_metric := accuracy_score; max_metric_tests := [];
     metric := r2_score; trace := [] |}.

(** The calls of [__init__], from [self.__clean_working_data()] on. *)
Definition initial_fill (initial_strategy : strategy) : M unit :=
  wd ← gets working_data;
  modify (with_num_of_columns (length wd));;
  emit CallSimpleImputer;;
  filled ← lift (SimpleImputer_fit_transform lib initial_strategy wd.*2);
  modify (with_imputed_df filled).

Definition __init__ (raw_data : DataFrame) (sequential : list Imputer)
    (categorical_columns : list bool) (metric : string)
    (initial_strategy : strategy) (train_size : Float.t)
    (early_stopping : bool) (iter_per_stopping : Z)
    (tolerance_percentage : Float.t) (verbose : nat) : res unit * MissMixed :=
  (__clean_working_data;;
   __process_categorical_data;;
   initial_fill initial_strategy;;
   __init_metrics metric)
    (new raw_data sequential categorical_columns train_size early_stopping
         iter_per_stopping tolerance_percentage verbose).

(** [MissMixed.__set_metric]. *)
Definition __set_metric : M unit :=
  sh ← gets shared;
  modify (λ s, with_metric
    (if default false (sd_is_categorical sh)
     then categorical_metric s else non_categorical_metric s) s).

(** [MissMixed.__can_impute]. *)
Definition __can_impute (col_index : nat) (test_score : Float.t) : M bool :=
  board ← gets max_metric_tests;
  d ← gets metric_direction;
  stored ← lift (of_option IndexError (board !! col_index));
  let do := Float.ltb (Float.mul stored (Float.of_Z d))
                      (Float.mul test_score (Float.of_Z d)) in
  (if do then modify (with_max_metric_tests (<[col_index := test_score]> board))
   else mret ());;
  mret do.

(** [MissMixed.__normalize]: one decision per feature column, taken from
    [self.shared.is_categorical()]. *)
Fixpoint __normalize (df_x : list (list cell)) : M (list (list cell)) :=
  match df_x with
  | [] => mret []
  | col :: df_x =>
      sh ← gets shared;
      col' ← (if negb (SharedData_is_categorical lib sh)
              then lift (min_max_scale col) else mret col);
      rest ← __normalize df_x;
      mret (col' :: rest)
  end.

(** [MissMixed.__dataset_preparation]. *)
Definition __dataset_preparation (col_index : nat) : M (train_test * impute_dataset) :=
  imputed ← gets imputed_df;
  (if bool_decide (col_index < length imputed)%nat then mret () else raise KeyError);;
  let features_df := delete col_index imputed in
  wd ← gets working_data;
  target ← lift (of_option IndexError (wd !! col_index));
  let target_series := target.2 in
  normalized_features ← __normalize features_df;
  let non_missing := positions notna target_series in
  let y_non_missing := filter (λ c, notna c = true) target_series in
  x_non_missing ← lift (loc_rows normalized_features non_missing);
  let y_missing := positions isna target_series in
  x_missing ← lift (loc_rows normalized_features y_missing);
  ts ← gets train_size;
  emit (CallSplit col_index);;
  ds ← lift (train_test_split lib x_non_missing y_non_missing ts);
  mret (ds, {| imp_x := x_missing; imp_y_index := y_missing |}).

(** [MissMixed.__apply_best_model]. *)
Definition __apply_best_model (model : Fitted) (impute_ds : impute_dataset)
    (col_index : nat) : M unit :=
  emit (CallPredict col_index);;
  y_pred_to_impute ← lift (model (imp_x impute_ds));
  imputed ← gets imputed_df;
  col ← lift (of_option KeyError (imputed !! col_index));
  col' ← lift (loc_assign col (imp_y_index impute_ds) y_pred_to_impute);
  modify (with_imputed_df (<[col_index := col']> imputed)).

(** One pass of the trial loop of [__process_each_column]. *)
Definition trial (model : Estimator) (col_index : nat) (ds : train_test)
    (t : nat) (acc : list trial_result) : M (list trial_result) :=
  emit (CallFit col_index t);;
  fitted ← lift (fit model t (x_train ds) (y_train ds));
  emit (CallPredict col_index);;
  p_train ← lift (fitted (x_train ds));
  let y_pred_train := map (λ p, Float.maximum p (Float.of_Z 0)) p_train in
  emit (CallPredict col_index);;
  p_test ← lift (fitted (x_test ds));
  let y_pred_test := map (λ p, Float.maximum p (Float.of_Z 0)) p_test in
  m ← gets metric;
  s_train ← lift (call_metric lib m (y_train ds) y_pred_train);
  s_val ← lift (call_metric lib m (y_test ds) y_pred_test);
  mret (acc ++ [{| tr_train := s_train; tr_val := s_val; tr_model := fitted |}]).

(** [MissMixed.__process_each_column]; [model] is [imputer.model], selected
    by the caller.  The lists [metric_scores] and [models] grow together
    and are kept as one list of [trial_result]. *)
Definition __process_each_column (imputer : Imputer) (model : Estimator)
    (col_index : nat) : M (bool * column_score) :=
  '(ds, impute_ds) ← __dataset_preparation col_index;
  if bool_decide (2 ≤ length (y_test ds))%nat then
    results ← for_acc (seq 0 (trials imputer)) [] (trial model col_index ds);
    d ← gets metric_direction;
    best_index ← lift (argmax (map (λ r, Float.mul (tr_val r) (Float.of_Z d)) results));
    best ← lift (of_option IndexError (results !! best_index));
    let score := {| cs_train := [tr_train best]; cs_val := [tr_val best] |} in
    _log 2 (MsgBest (tr_train best) (tr_val best));;
    ok ← __can_impute col_index (tr_val best);
    if ok : bool then
      __apply_best_model (tr_model best) impute_ds col_index;;
      _log 2 MsgColumnUpdated;;
      mret (true, score)
    else mret (false, score)
  else mret (false, {| cs_train := []; cs_val := [] |}).

(** The body of the column loop of [__process_each_imputer]; [count] is
    the local [updated_column_count].  The score history, which only
    feeds the text of a log line, is left out. *)
Definition process_column (imputer : Imputer) (col_idx : nat) (count : nat) : M nat :=
  modify (λ s, with_shared
    {| sd_categorical_columns := sd_categorical_columns (shared s);
       sd_category_counts := sd_category_counts (shared s);
       sd_processing_col_idx := Some col_idx;
       sd_is_categorical := sd_is_categorical (shared s) |} s);;
  flags ← gets categorical_columns;
  is_categorical ← lift (of_option IndexError (flags !! col_idx));
  modify (λ s, with_shared
    {| sd_categorical_columns := sd_categorical_columns (shared s);
       sd_category_counts := sd_category_counts (shared s);
       sd_processing_col_idx := sd_processing_col_idx (shared s);
       sd_is_categorical := Some is_categorical |} s);;
  __set_metric;;
  match set_model imputer is_categorical with
  | None => _log 2 MsgNoModel;; mret count
  | Some model =>
      n ← gets num_of_columns;
      _log 2 (MsgImputingColumn (col_idx + 1) n);;
      raw ← gets raw_data;
      raw_col ← lift (of_option IndexError (raw !! col_idx));
      if negb (existsb isna raw_col.2) then
        _log 2 MsgNoNull;;
        d ← gets metric_direction;
        __can_impute col_idx (Float.of_Z (if bool_decide (d ≠ 0) then 1 else 0));;
        mret count
      else
        '(is_column_updated, _) ← __process_each_column imputer model col_idx;
        mret (if is_column_updated : bool then S count else count)
  end.

(** [MissMixed.__process_each_imputer]. *)
Definition __process_each_imputer (imputer : Imputer) : M nat :=
  n ← gets num_of_columns;
  updated_column_count ← for_acc (seq 0 n) 0%nat (process_column imputer);
  _log 1 MsgAverage;;
  mret updated_column_count.

(** The loop of [__check_early_stopping] over the last update counts. *)
Fixpoint within_tolerance (n : nat) (tol : Float.t) (window : list nat) : res bool :=
  match window with
  | [] => OK true
  | updated_columns :: window =>
      if bool_decide (n = 0%nat) then Raise ZeroDivisionError
      else if Float.ltb tol (Float.div (Float.of_Z (Z.of_nat updated_columns))
                                       (Float.of_Z (Z.of_nat n)))
           then OK false
           else within_tolerance n tol window
  end.

(** [MissMixed.__check_early_stopping]. *)
Definition __check_early_stopping (updated_columns_count : list nat) : M bool :=
  es ← gets early_stopping;
  k ← gets iter_per_stopping;
  n ← gets num_of_columns;
  tol ← gets tolerance_percentage;
  if es : bool then
    if bool_decide (k ≤ Z.of_nat (length updated_columns_count)) then
      lift (within_tolerance n tol (py_slice_from updated_columns_count (-1 * k)))
    else mret false
  else mret false.

(** The body of the loop of [fit_transform]. *)
Definition iteration (total : nat) (step : nat * Imputer)
    (updated_columns_count : list nat) : M (list nat) :=
  _log 1 (MsgIteration (step.1 + 1) total);;
  count ← __process_each_imputer step.2;
  _log 1 (MsgColumnsUpdated count);;
  _log 1 MsgRule;;
  let updated_columns_count := updated_columns_count ++ [count] in
  stop ← __check_early_stopping updated_columns_count;
  (if stop : bool then emit MsgEarlyStopping else mret ());;
  mret updated_columns_count.

(** [MissMixed.fit_transform]. *)
Definition fit_transform : M unit :=
  imputers ← gets sequential;
  for_acc (imap pair imputers) [] (iteration (length imputers));;
  mret ().

(** [MissMixed.result]. *)
Definition result : M (list (list cell) * list Float.t) :=
  n ← gets num_of_columns;
  for_ (seq 0 n) (λ i,
    flags ← gets categorical_columns;
    flag ← lift (of_option IndexError (flags !! i));
    if flag : bool then
      encoders ← gets column_to_encoder;
      encoder ← lift (of_option KeyError (encoders !! i));
      imputed ← gets imputed_df;
      col ← lift (of_option IndexError (imputed !! i));
      codes ← lift (res_mapM astype_int64 col);
      decoded ← lift (LabelEncoder.inverse_transform encoder codes);
      modify (with_imputed_df (<[i := decoded]> imputed))
    else mret ());;
  imputed ← gets imputed_df;
  scores ← gets max_metric_tests;
  mret (imputed, scores).

End methods.

(** ** Stand-ins for the collaborators

    Small executable collaborators on which the methods can be run: the
    [constant] initial fill, the three metrics on finite data, a split that
    keeps the order of the rows, and estimators that predict one value. *)

Module Standin.

Definition fill_missing (v : cell) (col : list cell) : list cell :=
  map (λ c, if isna c then v else c) col.

(** [SimpleImputer(strategy='constant')] fills with 0; the other
    strategies are not provided. *)
Definition simple_imputer (s : strategy) (cols : list (list cell))
  : res (list (list cell)) :=
  match s with
  | constant => OK (map (fill_missing (Num (Float.of_Z 0))) cols)
  | _ => Raise ValueError
  end.

Definition finite (c : cell) : res Qc :=
  match c with Num (Float.Fin q) => OK q | _ => Raise ValueError end.

Definition finite_pred (x : Float.t) : res Qc :=
  match x with Float.Fin q => OK q | _ => Raise ValueError end.

Definition sum (l : list Qc) : Qc := foldr Qcplus 0%Qc l.

Definition mean_of (l : list Qc) : Qc := (sum l / Qc_of_Z (Z.of_nat (length l)))%Qc.

Definition squared_errors (ys ps : list Qc) : list Qc :=
  zip_with (λ y p, ((y - p) * (y - p))%Qc) ys ps.

Definition metric (m : metric_fn) (y_true : list cell) (y_pred : list Float.t)
  : res Float.t :=
  ys ← res_mapM finite y_true;
  ps ← res_mapM finite_pred y_pred;
  if bool_decide (length ys ≠ length ps ∨ ys = []) then Raise ValueError
  else match m with
       | mean_squared_error => OK (Float.Fin (mean_of (squared_errors ys ps)))
       | accuracy_score =>
           OK (Float.Fin (mean_of (zip_with (λ y p, if decide (y = p) then 1%Qc else 0%Qc) ys ps)))
       | r2_score =>
           if bool_decide (length ys < 2)%nat then OK Float.NaN
           else
             let ss_res := sum (squared_errors ys ps) in
             let ss_tot := sum (squared_errors ys (replicate (length ys) (mean_of ys))) in
             if decide (ss_tot = 0%Qc)
             then OK (Float.Fin (if decide (ss_res = 0%Qc) then 1%Qc else 0%Qc))
             else OK (Float.Fin (1 - ss_res / ss_tot)%Qc)
       end.

(** The first [floor (n * train_size)] rows train, the others validate. *)
Definition split (x : rows) (y : list cell) (train_size : Float.t) : res train_test :=
  match train_size with
  | Float.Fin q =>
      let k := Z.to_nat (Qfloor (Qc_of_Z (Z.of_nat (length y)) * q)%Qc) in
      OK {| x_train := take k x; y_train := take k y;
            x_test := drop k x; y_test := drop k y |}
  | _ => Raise ValueError
  end.

(** [is_categorical()] reads the flag stored under 'is_categorical'. *)
Definition is_categorical (sh : SharedData) : bool :=
  default false (sd_is_categorical sh).

Definition lib : Library :=
  {| SimpleImputer_fit_transform := simple_imputer;
     call_metric := metric;
     train_test_split := split;
     SharedData_is_categorical := is_categorical |}.

(** An estimator that predicts [v] for every row. *)
Definition predict_always (v : Float.t) : Estimator :=
  {| fit := λ _ _ _, OK (λ x, OK (replicate (length x) v)) |}.

(** A stage with the same constant estimator for both kinds of target. *)
Definition stage (v : Float.t) (trials : nat) : Imputer :=
  {| set_model := λ _, Some (predict_always v); trials := trials |}.

Definition num (z : Z) : cell := Num (Float.of_Z z).
Definition nan : cell := Num Float.NaN.
Definition half : Float.t := Float.Fin (Qc_of_Z 1 / Qc_of_Z 2)%Qc.
Definition tenth : Float.t := Float.Fin (Qc_of_Z 1 / Qc_of_Z 10)%Qc.

End Standin.


(** * The vocabulary of the properties *)

(** The two directions a metric family can have, and the one an integer
    [metric_direction] stands for. *)
Inductive direction := maximize | minimize.

Definition direction_of (d : Z) : option direction :=
  if decide (d = 1) then Some maximize
  else if decide (d = -1) then Some minimize
  else None.

(** The worst score of a direction, and what it means for a candidate to be
    strictly better than the stored score. *)
Definition worst (dir : direction) : Float.t :=
  match dir with maximize => Float.NInf | minimize => Float.PInf end.

Definition better (dir : direction) (stored candidate : Float.t) : Prop :=
  match dir with
  | maximize => Float.lt stored candidate
  | minimize => Float.lt candidate stored
  end.

(** How one entry of the score board can change: not at all, or to a value
    that passed the comparison of [__can_impute]. *)
Definition gate_step (d : Z) (old new : Float.t) : Prop :=
  new = old ∨
  Float.ltb (Float.mul old (Float.of_Z d)) (Float.mul new (Float.of_Z d)) = true.

Definition improves : relation MissMixed := λ s s',
  metric_direction s' = metric_direction s ∧
  Forall2 (gate_step (metric_direction s)) (max_metric_tests s) (max_metric_tests s').

(** Nothing but the trace differs. *)
Definition trace_only : relation MissMixed := λ s s',
  ∃ t, s' = with_trace t s.

(** A method respects a relation between states when the state it leaves,
    returning or raising, is related to the state it started from. *)
Definition respects (R : relation MissMixed) {A} (m : M A) : Prop :=
  ∀ s, R s (m s).2.

(** A score board without NaN stays without NaN. *)
Definition nan_free_kept : relation MissMixed := λ s s',
  Float.NaN ∉ max_metric_tests s → Float.NaN ∉ max_metric_tests s'.

(** Closes a decidable statement about a concrete run by evaluating it. *)
Ltac by_evaluation := apply (bool_decide_unpack _); vm_compute; exact I.

(** * Concrete runs *)

Module Scenario.
Import Standin.

(** Two fully observed numerical columns. *)
Definition observed : DataFrame :=
  [(0, [num 1; num 2; num 3]); (1, [num 4; num 5; num 6])].

(** An object whose table has two columns, before [__init_metrics]. *)
Definition two_columns : MissMixed :=
  with_num_of_columns 2 (new observed [] [false; false] half false 1 tenth 0).

(** A numerical column whose last entry is missing, next to an observed
    one. *)
Definition gappy : DataFrame :=
  [(0, [num 1; num 2; num 3; num 4; nan]);
   (1, [num 0; num 1; num 2; num 3; num 4])].

(** Collaborators whose metrics always answer NaN. *)
Definition nan_lib : Library :=
  {| SimpleImputer_fit_transform := simple_imputer;
     call_metric := λ _ _ _, OK Float.NaN;
     train_test_split := split;
     SharedData_is_categorical := is_categorical |}.

Definition nan_scored : MissMixed :=
  (__init__ nan_lib gappy [stage (Float.of_Z 7) 1] [false; false]
            "r2_accuracy" constant half false 1 tenth 0).2.


(** A stage that has no estimator for either kind of target. *)
Definition idle_stage : Imputer := {| set_model := λ _, None; trials := 1 |}.

(** Early stopping after one quiet stage, followed by a stage that has
    work to do: [MissMixed(gappy, [idle, sevens], [False, False],
    initial_strategy='constant', train_size=0.5, early_stopping=True,
    iter_per_stopping=1, tolerance_percentage=0.1, verbose=1)]. *)
Definition early_stopping_object : MissMixed :=
  (__init__ lib gappy [idle_stage; stage (Float.of_Z 7) 1] [false; false]
            "r2_accuracy" constant half true 1 tenth 1).2.

(** An unsupported metric on a table with an empty column, a categorical
    column and a numerical column with a gap: [MissMixed(mixed, [],
    [False, True, False], metric='bogus', initial_strategy='constant')]. *)
Definition mixed : DataFrame :=
  [(0, [nan; nan; nan]);
   (1, [Str "b"; Str "a"; Str "b"]);
   (2, [num 7; nan; num 9])].

Definition bogus_construction : res unit * MissMixed :=
  __init__ lib mixed [] [false; true; false] "bogus" constant half false 1 tenth 0.

(** A stage that predicts -1, scored by mean squared error. *)
Definition negative_object : MissMixed :=
  (__init__ lib gappy [stage (Float.of_Z (-1)) 1] [false; false]
            "mse" constant half false 1 tenth 0).2.

(** Two feature columns as [__normalize] receives them: a numerical one
    and the codes of a categorical one. *)
Definition numerical_feature : list cell := [num 1; num 2; num 3].
Definition categorical_feature : list cell := [num 0; num 1; num 2].

(** Fully observed columns under the metric 'mse'. *)
Definition mse_object : MissMixed :=
  (__init__ lib observed [stage (Float.of_Z 0) 1] [false; false]
            "mse" constant half false 1 tenth 0).2.

(** An empty column in front of an observed column and a column with a
    gap. *)
Definition shifted : DataFrame :=
  [(0, [nan; nan; nan; nan; nan]);
   (1, [num 0; num 1; num 2; num 3; num 4]);
   (2, [num 1; num 2; num 3; num 4; nan])].

Definition shifted_object : MissMixed :=
  (__init__ lib shifted [stage (Float.of_Z 7) 1] [false; false; false]
            "r2_accuracy" constant half false 1 tenth 2).2.

(** Two empty columns in front of a numerical one, flagged categorical,
    categorical, numerical. *)
Definition two_empty : DataFrame :=
  [(0, [nan; nan; nan]); (1, [nan; nan; nan]); (2, [num 1; num 2; num 3])].

Definition two_empty_object : MissMixed :=
  new two_empty [] [true; true; false] half false 1 tenth 0.

(** An observed column in front of two empty ones. *)
Definition empty_tail : DataFrame :=
  [(0, [num 1; num 2; num 3]); (1, [nan; nan; nan]); (2, [nan; nan; nan])].

Definition empty_tail_object : MissMixed :=
  new empty_tail [] [false; false; false] half false 1 tenth 0.

End Scenario.

(** * Vocabulary of the further properties *)

(** The deletions of [__clean_working_data] on the flag list, one after the
    other. *)
Fixpoint del_flags (flags : list bool) (dropped : list Z) : res (list bool) :=
  match dropped with
  | [] => OK flags
  | i :: dropped => flags' ← py_del flags i; del_flags flags' dropped
  end.

(** A column with at most one observed value. *)
Definition sparse (c : Z * list cell) : Prop := (non_null_count c.2 ≤ 1)%nat.

(** A method keeps a part [f] of the object. *)
Definition kept {B} (f : MissMixed → B) : relation MissMixed := λ s s',
  f s' = f s.

(** The part of the object that is settled once construction is over. *)
Definition configuration (s : MissMixed) :=
  (raw_data s, working_data s, categorical_columns s, column_to_encoder s,
   num_of_columns s, metric_direction s,
   (early_stopping s, iter_per_stopping s, tolerance_percentage s,
    train_size s, verbose s)).

(** The cell of the imputed table in column [j], row [r]. *)
Definition imputed_cell (s : MissMixed) (j r : nat) : option cell :=
  col ← imputed_df s !! j; col !! r.

(** The imputed table keeps its shape and its cells at the places where
    the working table has an observed value. *)
Definition observed_kept : relation MissMixed := λ s s',
  working_data s' = working_data s ∧
  length <$> imputed_df s' = length <$> imputed_df s ∧
  ∀ j label col r v,
    working_data s !! j = Some (label, col) →
    col !! r = Some v → notna v = true →
    imputed_cell s' j r = imputed_cell s j r.

(** A relation that is only asked of the states that satisfy [I], which it
    carries along. *)
Definition under (I : MissMixed → Prop) (R : relation MissMixed)
  : relation MissMixed := λ s s', I s → I s' ∧ R s s'.

(** The target column of the working table is [target]. *)
Definition targets (col : nat) (label : Z) (target : list cell)
  : MissMixed → Prop :=
  λ s, working_data s !! col = Some (label, target).


(** Every value a method returns satisfies [P]. *)
Definition returns {A} (P : A → Prop) (m : M A) : Prop :=
  ∀ s a s', m s = (OK a, s') → P a.

(** Nothing but the imputed table differs. *)
Definition imputed_only : relation MissMixed := λ s s',
  ∃ v, s' = with_imputed_df v s.

(** The body of the loop of [result], as it stands there. *)
Definition decode_column (i : nat) : M unit :=
  flags ← gets categorical_columns;
  flag ← lift (of_option IndexError (flags !! i));
  if flag : bool then
    encoders ← gets column_to_encoder;
    encoder ← lift (of_option KeyError (encoders !! i));
    imputed ← gets imputed_df;
    col ← lift (of_option IndexError (imputed !! i));
    codes ← lift (res_mapM astype_int64 col);
    decoded ← lift (LabelEncoder.inverse_transform encoder codes);
    modify (with_imputed_df (<[i := decoded]> imputed))
  else mret ().

(** The trace only grows, and the verbosity stays. *)
Definition trace_grows : relation MissMixed := λ s s',
  verbose s' = verbose s ∧ trace s `prefix_of` trace s'.

(** A column of finite numbers, as a column of cells. *)
Definition numbers (qs : list Qc) : list cell :=
  (λ q, Num (Float.Fin q)) <$> qs.
(** * Reasoning about methods *)

Lemma bind_unfold {A B} (m : M A) (k : A → M B) (s : MissMixed) :
  (m ≫= k) s = match m s with
               | (OK a, s') => k a s'
               | (Raise e, s') => (Raise e, s')
               end.
Proof. reflexivity. Qed.

Lemma bind_OK_inv {A B} (m : M A) (k : A → M B) s b s2 :
  (m ≫= k) s = (OK b, s2) →
  ∃ a s1, m s = (OK a, s1) ∧ k a s1 = (OK b, s2).
Proof.
  rewrite bind_unfold. destruct (m s) as [[a|e] s1]; intros H.
  - by exists a, s1.
  - discriminate.
Qed.

Section respects.
Context (R : relation MissMixed) `{!PreOrder R}.

Lemma respects_ret {A} (a : A) : respects R (mret a).
Proof. intros s. simpl. reflexivity. Qed.

Lemma respects_raise {A} (e : exn) : respects R (raise (A:=A) e).
Proof. intros s. simpl. reflexivity. Qed.

Lemma respects_gets {A} (f : MissMixed → A) : respects R (gets f).
Proof. intros s. simpl. reflexivity. Qed.

Lemma respects_lift {A} (r : res A) : respects R (lift r).
Proof. intros s. simpl. reflexivity. Qed.

Lemma respects_bind {A B} (m : M A) (k : A → M B) :
  respects R m → (∀ a, respects R (k a)) → respects R (m ≫= k).
Proof.
  intros Hm Hk s. rewrite bind_unfold.
  specialize (Hm s). destruct (m s) as [[a|e] s1]; simpl in *; [|done].
  etrans; [exact Hm|apply Hk].
Qed.

Lemma respects_for_acc {A B} (l : list A) (acc : B) (body : A → B → M B) :
  (∀ x acc, respects R (body x acc)) → respects R (for_acc l acc body).
Proof.
  intros Hbody. revert acc.
  induction l as [|x l IH]; intros acc; simpl.
  - apply respects_ret.
  - apply respects_bind; [apply Hbody|apply IH].
Qed.

Lemma respects_for_ {A} (l : list A) (body : A → M unit) :
  (∀ x, respects R (body x)) → respects R (for_ l body).
Proof.
  intros Hbody. induction l as [|x l IH]; simpl.
  - apply respects_ret.
  - apply respects_bind; [apply Hbody|intros _; apply IH].
Qed.

Lemma respects_modify (f : MissMixed → MissMixed) :
  (∀ s, R s (f s)) → respects R (modify f).
Proof. intros Hf s. apply Hf. Qed.

End respects.

(** Takes a method apart along its binds, branches and loops; what is left
    are its assignments. *)
Ltac respects_step :=
  lazymatch goal with
  | |- respects ?R (mbind _ _) => apply (respects_bind R); [|intros ?]
  | |- respects ?R (mret _) => apply (respects_ret R)
  | |- respects ?R (raise _) => apply (respects_raise R)
  | |- respects ?R (gets _) => apply (respects_gets R)
  | |- respects ?R (lift _) => apply (respects_lift R)
  | |- respects ?R (for_acc _ _ _) => apply (respects_for_acc R); intros ? ?
  | |- respects ?R (for_ _ _) => apply (respects_for_ R); intros ?
  | |- respects _ (if ?b then _ else _) => destruct b
  | |- respects _ (match ?x with _ => _ end) => destruct x
  | |- respects _ (match ?x with _ => _ end _) => destruct x
  | |- respects ?R (modify _) => apply (respects_modify R); intros ?
  end.

(** ** Floats *)

Lemma Qc_of_Z_1 : Qc_of_Z 1 = 1%Qc.
Proof. by apply Qc_is_canon. Qed.

Lemma Qc_of_Z_m1 : Qc_of_Z (-1) = (-1)%Qc.
Proof. by apply Qc_is_canon. Qed.

Lemma Float_ltb_lt (a b : Float.t) : Float.ltb a b = true ↔ Float.lt a b.
Proof.
  destruct a, b; simpl; try (split; (done || discriminate)).
  apply bool_decide_eq_true.
Qed.

Lemma Float_mul_1 (a : Float.t) : Float.mul a (Float.of_Z 1) = a.
Proof.
  destruct a; try reflexivity. unfold Float.of_Z; simpl.
  by rewrite Qc_of_Z_1, Qcmult_1_r.
Qed.

Lemma Float_mul_m1 (a : Float.t) : Float.mul a (Float.of_Z (-1)) = Float.opp a.
Proof.
  destruct a; try reflexivity. unfold Float.of_Z; simpl.
  rewrite Qc_of_Z_m1. f_equal. ring.
Qed.

Lemma Qcopp_lt_iff (x y : Qc) : (- x < - y)%Qc ↔ (y < x)%Qc.
Proof.
  rewrite !Qclt_nge. split; intros H Hle; apply H.
  - by apply Qcopp_le_compat.
  - apply Qcopp_le_compat in Hle. by rewrite !Qcopp_involutive in Hle.
Qed.

Lemma Float_ltb_opp (a b : Float.t) :
  Float.ltb (Float.opp a) (Float.opp b) = Float.ltb b a.
Proof.
  destruct a, b; simpl; try reflexivity.
  apply bool_decide_ext, Qcopp_lt_iff.
Qed.

Lemma Float_ltb_trans (a b c : Float.t) :
  Float.ltb a b = true → Float.ltb b c = true → Float.ltb a c = true.
Proof.
  destruct a, b, c; simpl; try (done || discriminate).
  rewrite !bool_decide_eq_true. apply Qclt_trans.
Qed.

Lemma Float_ltb_not_nan_r (a b : Float.t) : Float.ltb a b = true → b ≠ Float.NaN.
Proof. destruct a, b; simpl; (done || discriminate). Qed.

Lemma Float_mul_nan_l (b : Float.t) : Float.mul Float.NaN b = Float.NaN.
Proof. reflexivity. Qed.

(** The comparison of [__can_impute] is the order of the direction. *)
Lemma gate_better (d : Z) (dir : direction) (stored candidate : Float.t) :
  direction_of d = Some dir →
  Float.ltb (Float.mul stored (Float.of_Z d)) (Float.mul candidate (Float.of_Z d)) = true
  ↔ better dir stored candidate.
Proof.
  unfold direction_of. intros Hd. repeat case_decide; simplify_eq; simpl.
  - by rewrite !Float_mul_1, Float_ltb_lt.
  - by rewrite !Float_mul_m1, Float_ltb_opp, Float_ltb_lt.
Qed.

(** ** The score board only moves through the gate *)

#[local] Instance gate_step_preorder (d : Z) : PreOrder (gate_step d).
Proof.
  split.
  - intros x. by left.
  - intros x y z [->|Hxy] [->|Hyz]; [by left|by right|by right|].
    right. eapply Float_ltb_trans; eauto.
Qed.

Lemma improves_same (s s' : MissMixed) :
  metric_direction s' = metric_direction s →
  max_metric_tests s' = max_metric_tests s →
  improves s s'.
Proof.
  intros Hd Hb. split; [done|]. rewrite Hb.
  apply Forall2_same_length_lookup_2; [done|].
  intros i x y ??. simplify_eq. reflexivity.
Qed.

#[local] Instance improves_preorder : PreOrder improves.
Proof.
  split.
  - intros s. by apply improves_same.
  - intros s1 s2 s3 [Hd12 H12] [Hd23 H23]. split; [congruence|].
    rewrite Hd12 in H23.
    eapply Forall2_trans; [|exact H12|exact H23].
    intros x y z ??. by etrans.
Qed.

#[local] Instance trace_only_preorder : PreOrder trace_only.
Proof.
  split.
  - intros s. exists (trace s). by destruct s.
  - intros s1 s2 s3 [t1 ->] [t2 ->]. by exists t2.
Qed.

Lemma trace_only_improves (s s' : MissMixed) : trace_only s s' → improves s s'.
Proof. intros [t ->]. by apply improves_same. Qed.

Lemma respects_weaken (R1 R2 : relation MissMixed) {A} (m : M A) :
  (∀ s s', R1 s s' → R2 s s') → respects R1 m → respects R2 m.
Proof. intros HR Hm s. apply HR, Hm. Qed.

Create HintDb respects discriminated.

Ltac respects_go :=
  repeat first [ solve [eauto 2 with respects] | respects_step ].

(** ** Methods that only print or call out *)

Lemma emit_trace_only (e : event) : respects trace_only (emit e).
Proof. intros s. by eexists. Qed.

Lemma log_trace_only (level : nat) (e : event) : respects trace_only (_log level e).
Proof. unfold _log. pose proof emit_trace_only. respects_go. Qed.

#[local] Hint Resolve emit_trace_only log_trace_only : respects.

Lemma trace_only_respects_improves {A} (m : M A) :
  respects trace_only m → respects improves m.
Proof. apply respects_weaken, trace_only_improves. Qed.

Ltac improves_go :=
  repeat first
    [ solve [eauto 2 with respects]
    | solve [apply trace_only_respects_improves; eauto 2 with respects]
    | respects_step ];
  try by apply improves_same.

Section methods_respect.
Context (lib : Library).

Lemma normalize_trace_only (df_x : list (list cell)) :
  respects trace_only (__normalize lib df_x).
Proof. induction df_x; simpl; respects_go. Qed.

#[local] Hint Resolve normalize_trace_only : respects.

Lemma dataset_preparation_trace_only (col_index : nat) :
  respects trace_only (__dataset_preparation lib col_index).
Proof. unfold __dataset_preparation. respects_go. Qed.

Lemma trial_trace_only model col_index ds t acc :
  respects trace_only (trial lib model col_index ds t acc).
Proof. unfold trial. respects_go. Qed.

#[local] Hint Resolve dataset_preparation_trace_only trial_trace_only : respects.

Lemma check_early_stopping_trace_only (counts : list nat) :
  respects trace_only (__check_early_stopping counts).
Proof. unfold __check_early_stopping. respects_go. Qed.

(** ** The gate *)

Lemma can_impute_run (col_index : nat) (test_score : Float.t) (s : MissMixed) :
  __can_impute col_index test_score s =
  match max_metric_tests s !! col_index with
  | None => (Raise IndexError, s)
  | Some stored =>
      if Float.ltb (Float.mul stored (Float.of_Z (metric_direction s)))
                   (Float.mul test_score (Float.of_Z (metric_direction s)))
      then (OK true, with_max_metric_tests
                       (<[col_index := test_score]> (max_metric_tests s)) s)
      else (OK false, s)
  end.
Proof.
  unfold __can_impute, mbind, M_bind, mret, M_ret, gets, lift, modify. simpl.
  destruct (max_metric_tests s !! col_index) as [stored|]; simpl; [|done].
  by destruct (Float.ltb (Float.mul stored _) (Float.mul test_score _)).
Qed.

Lemma can_impute_improves (col_index : nat) (test_score : Float.t) :
  respects improves (__can_impute col_index test_score).
Proof.
  intros s. rewrite can_impute_run.
  destruct (max_metric_tests s !! col_index) as [stored|] eqn:Hst; simpl;
    [|reflexivity].
  destruct (Float.ltb (Float.mul stored _) (Float.mul test_score _)) eqn:Hlt;
    simpl; [|reflexivity].
  split; [done|]. simpl.
  rewrite <-(list_insert_id _ _ _ Hst) at 1.
  apply Forall2_insert; [|by right].
  apply Forall2_same_length_lookup_2; [done|].
  intros i x y ??. simplify_eq. reflexivity.
Qed.

#[local] Hint Resolve can_impute_improves : respects.

Lemma apply_best_model_improves model impute_ds col_index :
  respects improves (__apply_best_model model impute_ds col_index).
Proof. unfold __apply_best_model. improves_go. Qed.

#[local] Hint Resolve apply_best_model_improves : respects.

Lemma process_each_column_improves imputer model col_index :
  respects improves (__process_each_column lib imputer model col_index).
Proof. unfold __process_each_column. improves_go. Qed.

#[local] Hint Resolve process_each_column_improves : respects.

Lemma process_column_improves imputer col_idx count :
  respects improves (process_column lib imputer col_idx count).
Proof. unfold process_column, __set_metric. improves_go. Qed.

#[local] Hint Resolve process_column_improves : respects.

Lemma process_each_imputer_improves imputer :
  respects improves (__process_each_imputer lib imputer).
Proof. unfold __process_each_imputer. improves_go. Qed.

#[local] Hint Resolve process_each_imputer_improves : respects.

Lemma iteration_improves total step counts :
  respects improves (iteration lib total step counts).
Proof.
  unfold iteration. pose proof check_early_stopping_trace_only. improves_go.
Qed.

#[local] Hint Resolve iteration_improves : respects.

(** Whatever a run does, it leaves the direction alone and changes entries
    of the score board only through the gate. *)
Lemma fit_transform_improves : respects improves (fit_transform lib).
Proof. unfold fit_transform. improves_go. Qed.

End methods_respect.

#[local] Hint Resolve can_impute_improves : respects.

(** * The score board *)

Lemma init_metrics_run (metric : string) (s : MissMixed) :
  metric ∈ acceptable_metrics →
  let r2 := bool_decide (metric = "r2_accuracy"%string) in
  let d := if r2 then 1 else -1 in
  __init_metrics metric s =
  (OK (),
   with_max_metric_tests
     (replicate (num_of_columns s) (Float.mul Float.NInf (Float.of_Z d)))
     (with_metrics d (if r2 then r2_score else mean_squared_error)
                     (if r2 then accuracy_score else mean_squared_error) s)).
Proof.
  intros Hm. unfold __init_metrics.
  rewrite bool_decide_eq_false_2 by (by intros ?). reflexivity.
Qed.

Lemma gate_step_better (d : Z) (dir : direction) (old new : Float.t) :
  direction_of d = Some dir →
  gate_step d old new → new = old ∨ better dir old new.
Proof. intros Hd [->|H]; [by left|right]. by apply (gate_better d). Qed.

(** C7. ScoreBoard monotonicity: for a supported metric, [__init_metrics]
    fills the board with the worst score of the metric's direction (minus
    infinity when maximising, plus infinity when minimising);
    [__can_impute] accepts a candidate exactly when it is strictly better,
    in that direction, than the stored score, and on acceptance stores the
    candidate, otherwise changes nothing; and over a whole run of
    [fit_transform] every entry of the board is either what it was or
    strictly better. *)
Theorem scoreboard_monotone (lib : Library) (metric : string) (s0 : MissMixed) :
  metric ∈ acceptable_metrics →
  ∃ dir s1,
    __init_metrics metric s0 = (OK (), s1) ∧
    direction_of (metric_direction s1) = Some dir ∧
    (dir = maximize ↔ metric = "r2_accuracy"%string) ∧
    max_metric_tests s1 = replicate (num_of_columns s0) (worst dir) ∧
    (∀ s col stored candidate,
       metric_direction s = metric_direction s1 →
       max_metric_tests s !! col = Some stored →
       ∃ accepted : bool,
         (accepted = true ↔ better dir stored candidate) ∧
         __can_impute col candidate s =
         (OK accepted,
          if accepted
          then with_max_metric_tests (<[col := candidate]> (max_metric_tests s)) s
          else s)) ∧
    (∀ s col old,
       metric_direction s = metric_direction s1 →
       max_metric_tests s !! col = Some old →
       ∃ new, max_metric_tests (fit_transform lib s).2 !! col = Some new ∧
              (new = old ∨ better dir old new)).
Proof.
  intros Hm.
  set (r2 := bool_decide (metric = "r2_accuracy"%string)).
  exists (if r2 then maximize else minimize). eexists.
  split; [by apply init_metrics_run|]. fold r2. simpl.
  assert (Hdir : direction_of (if r2 then 1 else -1)
                 = Some (if r2 then maximize else minimize))
    by (by destruct r2).
  split; [done|]. split.
  { unfold r2. case_bool_decide; naive_solver. }
  split; [by destruct r2|]. split.
  - intros s col stored candidate Hd Hst. rewrite can_impute_run, Hst, Hd.
    destruct (Float.ltb _ _) eqn:Hlt.
    + exists true. split; [|done]. split; [|done]. intros _.
      by apply (gate_better _ _ _ _ Hdir).
    + exists false. split; [|done]. split; [done|]. intros Hb.
      apply (gate_better _ _ _ _ Hdir) in Hb. congruence.
  - intros s col old Hd Hst.
    destruct (fit_transform_improves lib s) as [_ Himp].
    destruct (Forall2_lookup_l _ _ _ _ _ Himp Hst) as (new & Hnew & Hstep).
    exists new. split; [done|].
    apply (gate_step_better (metric_direction s)); [|done]. by rewrite Hd.
Qed.

Lemma scoreboard_monotone_witness :
  ("mse"%string ∈ acceptable_metrics) ∧
  ∃ s1, __init_metrics "mse" Scenario.two_columns = (OK (), s1) ∧
        max_metric_tests s1 = [Float.PInf; Float.PInf].
Proof.
  assert (Hm : "mse"%string ∈ acceptable_metrics) by (unfold acceptable_metrics; set_solver).
  split; [exact Hm|].
  destruct (scoreboard_monotone Standin.lib "mse" Scenario.two_columns Hm)
    as (dir & s1 & Hrun & _ & Hdir & Hboard & _).
  exists s1. split; [exact Hrun|].
  destruct dir; [|exact Hboard].
  destruct Hdir as [Hdir _]. specialize (Hdir eq_refl). discriminate.
Defined.

(** * Scores that are NaN *)

#[local] Instance nan_free_kept_preorder : PreOrder nan_free_kept.
Proof. split; unfold nan_free_kept; [intros s|intros s1 s2 s3]; auto. Qed.

Lemma gate_step_not_nan (d : Z) (old new : Float.t) :
  gate_step d old new → old ≠ Float.NaN → new ≠ Float.NaN.
Proof.
  intros [->|Hlt] Hold; [done|]. intros ->.
  by apply Float_ltb_not_nan_r in Hlt.
Qed.

Lemma improves_nan_free_kept (s s' : MissMixed) : improves s s' → nan_free_kept s s'.
Proof.
  intros [_ Himp] Hfree Hin.
  apply list_elem_of_lookup in Hin as [i Hi].
  destruct (Forall2_lookup_r _ _ _ _ _ Himp Hi) as (old & Hold & Hstep).
  apply (gate_step_not_nan _ _ _ Hstep); [|done].
  intros ->. apply Hfree. by eapply list_elem_of_lookup_2.
Qed.

Section construction.
Context (lib : Library).

Lemma clean_working_data_improves : respects improves __clean_working_data.
Proof. unfold __clean_working_data. improves_go. Qed.

Lemma process_categorical_data_improves :
  respects improves __process_categorical_data.
Proof. unfold __process_categorical_data, encode_column. improves_go. Qed.

Lemma initial_fill_improves strat : respects improves (initial_fill lib strat).
Proof. unfold initial_fill. improves_go. Qed.

Lemma init_metrics_nan_free_kept metric : respects nan_free_kept (__init_metrics metric).
Proof.
  intros s. unfold __init_metrics. case_bool_decide as Hm; [done|].
  intros _. simpl. intros [Hnan _]%elem_of_replicate.
  by case_bool_decide.
Qed.

Lemma init_nan_free raw seq flags metric strat ts es k tol v :
  Float.NaN ∉ max_metric_tests
    (__init__ lib raw seq flags metric strat ts es k tol v).2.
Proof.
  unfold __init__.
  assert (respects nan_free_kept
            (__clean_working_data;; __process_categorical_data;;
             initial_fill lib strat;; __init_metrics metric)) as H.
  { apply (respects_bind nan_free_kept); [|intros _].
    { eapply respects_weaken, clean_working_data_improves.
      apply improves_nan_free_kept. }
    apply (respects_bind nan_free_kept); [|intros _].
    { eapply respects_weaken, process_categorical_data_improves.
      apply improves_nan_free_kept. }
    apply (respects_bind nan_free_kept); [|intros _].
    { eapply respects_weaken, initial_fill_improves.
      apply improves_nan_free_kept. }
    apply init_metrics_nan_free_kept. }
  apply H. simpl. by intros ?%elem_of_nil.
Qed.

End construction.

Lemma trace_only_fields (s s' : MissMixed) :
  trace_only s s' →
  imputed_df s' = imputed_df s ∧ max_metric_tests s' = max_metric_tests s ∧
  metric_direction s' = metric_direction s.
Proof. by intros [t ->]. Qed.

Lemma for_acc_trial_trace_only lib model col_index ds l acc :
  respects trace_only (for_acc l acc (trial lib model col_index ds)).
Proof. apply (respects_for_acc trace_only). intros. apply trial_trace_only. Qed.

(** A column whose best validation score is NaN is left alone. *)
Lemma process_each_column_nan lib imputer model col s updated train :
  (__process_each_column lib imputer model col s).1
    = OK (updated, {| cs_train := train; cs_val := [Float.NaN] |}) →
  updated = false ∧
  imputed_df (__process_each_column lib imputer model col s).2 = imputed_df s ∧
  max_metric_tests (__process_each_column lib imputer model col s).2
    = max_metric_tests s.
Proof.
  destruct (__process_each_column lib imputer model col s) as [r s'] eqn:Hrun.
  simpl. intros ->. unfold __process_each_column in Hrun.
  apply bind_OK_inv in Hrun as ([ds ids] & s1 & H1 & Hrun).
  pose proof (dataset_preparation_trace_only lib col s) as T1.
  rewrite H1 in T1. simpl in T1.
  case_bool_decide as Hlen; [|by inversion Hrun].
  apply bind_OK_inv in Hrun as (results & s2 & H2 & Hrun).
  pose proof (for_acc_trial_trace_only lib model col ds
                (seq 0 (trials imputer)) [] s1) as T2.
  rewrite H2 in T2. simpl in T2.
  apply bind_OK_inv in Hrun as (d & sa & Ha & Hrun).
  injection Ha as _ <-.
  apply bind_OK_inv in Hrun as (best_index & sb & Hb & Hrun).
  injection Hb as _ <-.
  apply bind_OK_inv in Hrun as (best & sc & Hc & Hrun).
  injection Hc as _ <-.
  apply bind_OK_inv in Hrun as ([] & s3 & H6 & Hrun).
  pose proof (log_trace_only 2 (MsgBest (tr_train best) (tr_val best)) s2) as T3.
  rewrite H6 in T3. simpl in T3.
  apply bind_OK_inv in Hrun as (ok & s4 & H7 & Hrun).
  assert (T : trace_only s s3) by (by etrans; [|etrans]).
  apply trace_only_fields in T as (Ti & Tb & Td).
  rewrite can_impute_run in H7.
  destruct (max_metric_tests s3 !! col) as [stored|]; [|discriminate].
  destruct (Float.ltb _ _) eqn:Hlt.
  - inversion H7; subst ok s4.
    apply bind_OK_inv in Hrun as ([] & s5 & _ & Hrun).
    apply bind_OK_inv in Hrun as ([] & s6 & _ & Hrun).
    inversion Hrun as [[Hu Ht Hv Hs]]. rewrite Hv in Hlt.
    by apply Float_ltb_not_nan_r in Hlt.
  - inversion H7; subst ok s4. inversion Hrun; subst. done.
Qed.

(** C10. A candidate validation score that is NaN never passes the gate:
    [__can_impute] answers False and leaves the object as it is (or raises
    IndexError, for a column the board does not have); a column whose best
    validation score is NaN is not updated and neither the imputed table
    nor the board changes; and the board, free of NaN when [__init__] is
    done, is free of NaN after [fit_transform], so no entry ever becomes
    NaN. *)
Theorem nan_score_rejected (lib : Library) :
  (∀ s col,
     __can_impute col Float.NaN s =
     ((match max_metric_tests s !! col with
       | Some _ => OK false
       | None => Raise IndexError
       end), s)) ∧
  (∀ imputer model col s updated train,
     (__process_each_column lib imputer model col s).1
       = OK (updated, {| cs_train := train; cs_val := [Float.NaN] |}) →
     updated = false ∧
     imputed_df (__process_each_column lib imputer model col s).2 = imputed_df s ∧
     max_metric_tests (__process_each_column lib imputer model col s).2
       = max_metric_tests s) ∧
  (∀ raw seq flags metric strat ts es k tol v,
     let s0 := (__init__ lib raw seq flags metric strat ts es k tol v).2 in
     (Float.NaN ∉ max_metric_tests s0) ∧
     (Float.NaN ∉ max_metric_tests (fit_transform lib s0).2)) ∧
  (∀ s, Float.NaN ∉ max_metric_tests s →
        Float.NaN ∉ max_metric_tests (fit_transform lib s).2).
Proof.
  assert (Hrun : ∀ s, Float.NaN ∉ max_metric_tests s →
                      Float.NaN ∉ max_metric_tests (fit_transform lib s).2).
  { intros s. apply improves_nan_free_kept, fit_transform_improves. }
  split; [|split; [|split]].
  - intros s col. rewrite can_impute_run.
    destruct (max_metric_tests s !! col) as [stored|]; [|done].
    assert (Float.ltb (Float.mul stored (Float.of_Z (metric_direction s)))
                      (Float.mul Float.NaN (Float.of_Z (metric_direction s)))
            = false) as ->; [|done].
    simpl. by destruct (Float.mul stored _).
  - apply process_each_column_nan.
  - intros raw seq flags m strat ts es k tol v.
    pose proof (init_nan_free lib raw seq flags m strat ts es k tol v).
    split; [done|]. by apply Hrun.
  - exact Hrun.
Qed.

Lemma nan_score_rejected_witness :
  let run := __process_each_column Scenario.nan_lib
               (Standin.stage (Float.of_Z 7) 1)
               (Standin.predict_always (Float.of_Z 7)) 0 Scenario.nan_scored in
  run.1 = OK (false, {| cs_train := [Float.NaN]; cs_val := [Float.NaN] |}) ∧
  imputed_df run.2 = imputed_df Scenario.nan_scored.
Proof.
  intros run.
  assert (H : run.1 = OK (false, {| cs_train := [Float.NaN];
                                    cs_val := [Float.NaN] |}))
    by (vm_compute; reflexivity).
  split; [exact H|].
  destruct (nan_score_rejected Scenario.nan_lib) as (_ & Hcol & _).
  exact (proj1 (proj2 (Hcol _ _ _ _ _ _ H))).
Defined.

(** * Categorical encoding *)

Lemma Float_trunc_of_Z (z : Z) : Float.trunc (Qc_of_Z z) = z.
Proof.
  unfold Float.trunc. case_bool_decide; simpl.
  - apply Qceiling_Z.
  - apply Qfloor_Z.
Qed.

Lemma res_mapM_OK_cons {A B} (f : A → res B) x l ys :
  res_mapM f (x :: l) = OK ys →
  ∃ y ys', f x = OK y ∧ res_mapM f l = OK ys' ∧ ys = y :: ys'.
Proof.
  simpl. destruct (f x) as [y|]; simpl; [|discriminate].
  destruct (res_mapM f l) as [ys'|]; simpl; [|discriminate].
  intros [= <-]. eauto.
Qed.

(** Where a column is observed, the encoded column holds the code of the
    value that was there. *)
Lemma assign_notna_lookup (f : cell → res cell) (col codes : list cell) :
  res_mapM f (filter (λ c, notna c = true) col) = OK codes →
  ∀ i v, col !! i = Some v → notna v = true →
  ∃ c, assign_notna col codes !! i = Some c ∧ f v = OK c.
Proof.
  revert codes. induction col as [|c0 col IH]; intros codes Hcodes i v Hi Hv;
    [done|].
  rewrite filter_cons in Hcodes. simpl.
  destruct (decide (notna c0 = true)) as [Hc0|Hc0].
  - rewrite Hc0.
    apply res_mapM_OK_cons in Hcodes as (y & ys & Hy & Hys & ->).
    destruct i as [|i]; simpl in *.
    + simplify_eq. by exists y.
    + by apply IH.
  - apply not_true_is_false in Hc0. rewrite Hc0.
    destruct i as [|i]; simpl in *.
    + simplify_eq. congruence.
    + by apply IH.
Qed.

Lemma encode_one_OK (enc : LabelEncoder.t) (v : cell) :
  v ∈ LabelEncoder.classes_ enc →
  ∃ i : nat, LabelEncoder.encode_one enc v = OK (Num (Float.of_Z (Z.of_nat i))) ∧
             LabelEncoder.classes_ enc !! i = Some v.
Proof.
  intros Hv. unfold LabelEncoder.encode_one.
  destruct (list_find_elem_of (λ c, c = v) _ v Hv eq_refl) as [[i y] Hfind].
  rewrite Hfind. apply list_find_Some in Hfind as (Hi & -> & _). eauto.
Qed.

Lemma res_mapM_total {A B} (f : A → res B) (l : list A) :
  (∀ x, x ∈ l → ∃ y, f x = OK y) → ∃ ys, res_mapM f l = OK ys.
Proof.
  induction l as [|x l IH]; intros Hf; simpl; [eauto|].
  destruct (Hf x) as [y ->]; [left|]. simpl.
  destruct IH as [ys ->]; [|simpl; eauto].
  intros x' Hx'. apply Hf. by right.
Qed.

Lemma fit_classes (vals : list cell) :
  LabelEncoder.uniform vals = true →
  ∃ enc, LabelEncoder.fit vals = OK enc ∧
         ∀ v, v ∈ vals → v ∈ LabelEncoder.classes_ enc.
Proof.
  intros Hu. unfold LabelEncoder.fit. rewrite Hu. eexists. split; [done|].
  intros v Hv. simpl. rewrite elem_of_remove_dups.
  by rewrite merge_sort_Permutation.
Qed.

(** What one pass of the encoding loop leaves behind. *)
Lemma encode_column_OK (step : nat * bool) (cc cc' : list nat) (s s' : MissMixed) :
  encode_column step cc s = (OK cc', s') →
  if step.2 then
    ∃ label col encoder codes,
      working_data s !! step.1 = Some (label, col) ∧
      LabelEncoder.fit_transform (filter (λ c, notna c = true) col)
        = OK (encoder, codes) ∧
      working_data s'
        = <[step.1 := (label, assign_notna col codes)]> (working_data s) ∧
      column_to_encoder s' = <[step.1 := encoder]> (column_to_encoder s)
  else working_data s' = working_data s ∧
       column_to_encoder s' = column_to_encoder s.
Proof.
  destruct step as [j []]; unfold encode_column; simpl; intros Hrun.
  - apply bind_OK_inv in Hrun as (wd & sa & Ha & Hrun). injection Ha as <- <-.
    apply bind_OK_inv in Hrun as ([label col] & sb & Hb & Hrun).
    unfold lift in Hb. injection Hb as Hcol <-.
    destruct (working_data s !! j) as [[label' col']|] eqn:Hwd; [|done].
    injection Hcol as -> ->.
    apply bind_OK_inv in Hrun as ([] & sc & Hc & Hrun).
    injection Hc as <-.
    apply bind_OK_inv in Hrun as ([encoder codes] & sd & Hd & Hrun).
    unfold lift in Hd. injection Hd as Hft <-.
    apply bind_OK_inv in Hrun as ([] & se & He & Hrun). injection He as <-.
    apply bind_OK_inv in Hrun as ([] & sf & Hf & Hrun). injection Hf as <-.
    injection Hrun as _ <-. simpl in *.
    exists label, col, encoder, codes. by rewrite Hft.
  - by injection Hrun as _ <-.
Qed.

Lemma encode_loop (j : nat) (l : list bool) (cc cc' : list nat) (s s' : MissMixed) :
  for_acc (imap (λ i, pair (j + i)%nat) l) cc encode_column s = (OK cc', s') →
  (∀ i, (i < j)%nat →
        working_data s' !! i = working_data s !! i ∧
        column_to_encoder s' !! i = column_to_encoder s !! i) ∧
  (∀ i label col,
     l !! i = Some true →
     working_data s !! (j + i)%nat = Some (label, col) →
     ∃ encoder codes,
       LabelEncoder.fit_transform (filter (λ c, notna c = true) col)
         = OK (encoder, codes) ∧
       column_to_encoder s' !! (j + i)%nat = Some encoder ∧
       working_data s' !! (j + i)%nat = Some (label, assign_notna col codes)).
Proof.
  revert j cc s. induction l as [|flag l IH]; intros j cc s Hrun.
  { injection Hrun as _ <-. split; [done|]. by intros i ?? ?. }
  rewrite imap_cons in Hrun. simpl in Hrun.
  apply bind_OK_inv in Hrun as (cc1 & s1 & Hstep & Hrun).
  rewrite (imap_ext _ (λ i, pair (S j + i)%nat)) in Hrun
    by (intros; simpl; f_equal; lia).
  apply IH in Hrun as [Hbelow Hfrom].
  apply encode_column_OK in Hstep. simpl in Hstep.
  rewrite Nat.add_0_r in Hstep.
  assert (Hother : ∀ i, i ≠ j →
            working_data s1 !! i = working_data s !! i ∧
            column_to_encoder s1 !! i = column_to_encoder s !! i).
  { intros i Hi. destruct flag.
    - destruct Hstep as (? & ? & ? & ? & _ & _ & -> & ->).
      split; [by apply list_lookup_insert_ne|by apply lookup_insert_ne].
    - by destruct Hstep as [-> ->]. }
  split.
  - intros i Hi. destruct (Hbelow i) as [-> ->]; [lia|]. apply Hother. lia.
  - intros [|i] label col Hflag Hcol.
    + simpl in Hflag. injection Hflag as ->. rewrite Nat.add_0_r in *.
      destruct Hstep as (label' & col' & encoder & codes & Hwd & Hft & Hw & He).
      rewrite Hcol in Hwd. injection Hwd as <- <-.
      exists encoder, codes. split; [done|].
      destruct (Hbelow j) as [-> ->]; [lia|]. rewrite Hw, He. split.
      * apply lookup_insert_eq.
      * apply list_lookup_insert_eq. by eapply lookup_lt_Some.
    + simpl in Hflag. replace (j + S i)%nat with (S j + i)%nat in * by lia.
      apply Hfrom; [done|]. destruct (Hother (S j + i)%nat) as [-> _]; [lia|done].
Qed.

(** Construction encodes every column flagged categorical with an encoder
    fitted on its observed values, and keeps that encoder under the
    position of the column. *)
Lemma process_categorical_data_encodes (s s' : MissMixed) (i : nat)
    (label : Z) (col : list cell) :
  __process_categorical_data s = (OK (), s') →
  categorical_columns s !! i = Some true →
  working_data s !! i = Some (label, col) →
  ∃ encoder codes,
    LabelEncoder.fit_transform (filter (λ c, notna c = true) col)
      = OK (encoder, codes) ∧
    column_to_encoder s' !! i = Some encoder ∧
    working_data s' !! i = Some (label, assign_notna col codes).
Proof.
  unfold __process_categorical_data. intros Hrun Hflag Hcol.
  apply bind_OK_inv in Hrun as ([] & sa & Ha & Hrun). injection Ha as <-.
  apply bind_OK_inv in Hrun as (wd0 & sb & Hb & Hrun). injection Hb as _ <-.
  apply bind_OK_inv in Hrun as (flags & sc & Hc & Hrun). injection Hc as <- <-.
  apply bind_OK_inv in Hrun as (cc & sd & Hloop & Hrun).
  injection Hrun as <-. simpl in *.
  apply (encode_loop 0) in Hloop as [_ Hfrom].
  destruct (Hfrom i label col Hflag Hcol) as (encoder & codes & ? & ? & ?).
  by exists encoder, codes.
Qed.

(** The round trip on one column: the encoder is built, the column
    encoded, and every observed entry decodes to what it was. *)
Lemma column_round_trip (col : list cell) :
  LabelEncoder.uniform (filter (λ c, notna c = true) col) = true →
  ∃ encoder codes,
    LabelEncoder.fit_transform (filter (λ c, notna c = true) col)
      = OK (encoder, codes) ∧
    ∀ i v, col !! i = Some v → notna v = true →
      ∃ c, assign_notna col codes !! i = Some c ∧
           LabelEncoder.encode_one encoder v = OK c ∧
           (code ← astype_int64 c; LabelEncoder.decode_one encoder code) = OK v.
Proof.
  intros Hu. destruct (fit_classes _ Hu) as (enc & Hfit & Hclasses).
  destruct (res_mapM_total (LabelEncoder.encode_one enc)
              (filter (λ c, notna c = true) col)) as [codes Hcodes].
  { intros v Hv. destruct (encode_one_OK enc v) as (i & Hi & _); eauto. }
  exists enc, codes. split.
  { unfold LabelEncoder.fit_transform, LabelEncoder.transform.
    rewrite Hfit. simpl. by rewrite Hcodes. }
  intros i v Hi Hv.
  destruct (assign_notna_lookup _ _ _ Hcodes i v Hi Hv) as (c & Hc & Henc).
  exists c. split; [done|]. split; [done|].
  destruct (encode_one_OK enc v) as (j & Hj & Hcls).
  { apply Hclasses, list_elem_of_filter. split; [done|].
    by eapply list_elem_of_lookup_2. }
  rewrite Hj in Henc. injection Henc as <-. simpl.
  rewrite Float_trunc_of_Z. unfold LabelEncoder.decode_one.
  rewrite bool_decide_eq_true_2 by lia. by rewrite Nat2Z.id, Hcls.
Qed.

Lemma fit_transform_uniform (vals : list cell) (r : LabelEncoder.t * list cell) :
  LabelEncoder.fit_transform vals = OK r → LabelEncoder.uniform vals = true.
Proof.
  unfold LabelEncoder.fit_transform, LabelEncoder.fit.
  by destruct (LabelEncoder.uniform vals).
Qed.



(** * Early stopping *)

(** C1. Early stopping does not halt the run.  On a table with one gap,
    with early stopping enabled, a window of one stage and tolerance 0.1,
    the first stage has no estimator and updates nothing, so
    [__check_early_stopping] answers True and the message is printed; the
    second stage is processed all the same: its estimator is fitted and
    its prediction is written into the imputed table. *)
Theorem early_stopping_does_not_halt :
  let run := fit_transform Standin.lib Scenario.early_stopping_object in
  (__check_early_stopping [0%nat] Scenario.early_stopping_object).1 = OK true ∧
  run.1 = OK () ∧
  trace run.2 =
    trace Scenario.early_stopping_object ++
    [MsgIteration 1 2; MsgAverage; MsgColumnsUpdated 0; MsgRule;
     MsgEarlyStopping;
     MsgIteration 2 2; CallSplit 0; CallFit 0 0; CallPredict 0; CallPredict 0;
     CallPredict 0; MsgAverage; MsgColumnsUpdated 1; MsgRule] ∧
  imputed_df Scenario.early_stopping_object !! 0%nat =
    Some [Standin.num 1; Standin.num 2; Standin.num 3; Standin.num 4; Standin.num 0] ∧
  imputed_df run.2 !! 0%nat =
    Some [Standin.num 1; Standin.num 2; Standin.num 3; Standin.num 4; Standin.num 7].
Proof. repeat split; by_evaluation. Qed.

(** * Construction *)

(** C2, as stated, fails: with the metric 'bogus' the configuration error
    is raised, but only after the empty column was dropped, the categorical
    column encoded and the table filled. *)
Lemma fail_fast_counterexample :
  ("bogus"%string ∉ acceptable_metrics) ∧
  Scenario.bogus_construction.1 = Raise (InvalidMetric "bogus") ∧
  trace Scenario.bogus_construction.2 =
    [MsgColumnsDropped [0]; CallLabelEncoder 0; CallSimpleImputer] ∧
  working_data Scenario.bogus_construction.2 =
    [(1, [Standin.num 1; Standin.num 0; Standin.num 1]);
     (2, [Standin.num 7; Standin.nan; Standin.num 9])] ∧
  imputed_df Scenario.bogus_construction.2 =
    [[Standin.num 1; Standin.num 0; Standin.num 1];
     [Standin.num 7; Standin.num 0; Standin.num 9]].
Proof. repeat split; by_evaluation. Qed.

Lemma initial_fill_trace (lib : Library) (strat : strategy) (s s' : MissMixed) :
  initial_fill lib strat s = (OK (), s') → CallSimpleImputer ∈ trace s'.
Proof.
  unfold initial_fill, mbind, M_bind, gets, modify, emit, lift. simpl.
  destruct (SimpleImputer_fit_transform lib strat _); intros [= <-]; simpl.
  set_solver.
Qed.

(** C2, amended. With a metric that is not supported, construction never
    succeeds; and whenever cleaning, encoding and the initial fill go
    through, what is raised is the configuration error of
    [__init_metrics], on the object as those three steps left it, after
    the call of the initial fill. *)
Theorem invalid_metric_raised_last (lib : Library) (raw : DataFrame)
    (seq : list Imputer) (flags : list bool) (name : string) (strat : strategy)
    (ts : Float.t) (es : bool) (k : Z) (tol : Float.t) (v : nat) :
  name ∉ acceptable_metrics →
  let prepared :=
    (__clean_working_data;; __process_categorical_data;; initial_fill lib strat)
      (new raw seq flags ts es k tol v) in
  let built := __init__ lib raw seq flags name strat ts es k tol v in
  (∃ e, built.1 = Raise e) ∧
  (prepared.1 = OK () →
   built = (Raise (InvalidMetric name), prepared.2) ∧
   CallSimpleImputer ∈ trace built.2).
Proof.
  intros Hname prepared built.
  assert (Hinit : ∀ s, __init_metrics name s = (Raise (InvalidMetric name), s)).
  { intros s. unfold __init_metrics. by rewrite bool_decide_eq_true_2. }
  subst prepared built. unfold __init__.
  set (s0 := new raw seq flags ts es k tol v).
  rewrite !bind_unfold.
  destruct (__clean_working_data s0) as [[[]|e1] s1];
    [|simpl; split; [by eexists|discriminate]].
  rewrite !bind_unfold.
  destruct (__process_categorical_data s1) as [[[]|e2] s2];
    [|simpl; split; [by eexists|discriminate]].
  rewrite !bind_unfold.
  destruct (initial_fill lib strat s2) as [[[]|e3] s3] eqn:Hfill;
    [|simpl; split; [by eexists|discriminate]].
  rewrite Hinit. simpl. split; [by eexists|]. intros _. split; [done|].
  by eapply initial_fill_trace.
Qed.

Lemma invalid_metric_raised_last_witness :
  ("bogus"%string ∉ acceptable_metrics) ∧
  CallSimpleImputer ∈ trace Scenario.bogus_construction.2.
Proof.
  assert (Hname : "bogus"%string ∉ acceptable_metrics) by by_evaluation.
  split; [exact Hname|].
  refine (proj2 (proj2 (invalid_metric_raised_last Standin.lib Scenario.mixed []
            [false; true; false] "bogus" constant Standin.half false 1
            Standin.tenth 0 Hname) _)).
  vm_compute. reflexivity.
Defined.

(** * Predictions that are written *)

(** C3. A negative prediction reaches the imputed table.  With a stage
    that predicts -1 and the metric 'mse', the score of the column is that
    of the clamped prediction 0 on the validation rows 3 and 4, that is
    (9 + 16) / 2; the update is accepted and [__apply_best_model] writes
    the prediction as the model gives it, -1, into the gap. *)
Theorem negative_prediction_written :
  let run := fit_transform Standin.lib Scenario.negative_object in
  run.1 = OK () ∧
  max_metric_tests run.2 !! 0%nat
    = Some (Float.Fin (Qc_of_Z 25 / Qc_of_Z 2)%Qc) ∧
  imputed_df run.2 !! 0%nat =
    Some [Standin.num 1; Standin.num 2; Standin.num 3; Standin.num 4;
          Standin.num (-1)] ∧
  Float.ltb (Float.of_Z (-1)) (Float.of_Z 0) = true.
Proof. repeat split; by_evaluation. Qed.

(** * Normalisation *)

(** [__normalize] takes one decision for all the columns it is given. *)
Lemma normalize_run (lib : Library) (df_x : list (list cell)) (s : MissMixed) :
  __normalize lib df_x s =
  (if SharedData_is_categorical lib (shared s) then OK df_x
   else res_mapM min_max_scale df_x, s).
Proof.
  induction df_x as [|col df_x IH]; simpl.
  - by destruct (SharedData_is_categorical lib (shared s)).
  - unfold mbind at 1, M_bind at 1, gets. simpl.
    destruct (SharedData_is_categorical lib (shared s)); simpl.
    + unfold mbind, M_bind, mret, M_ret in *. by rewrite IH.
    + unfold mbind at 1, M_bind at 1, lift.
      destruct (min_max_scale col) as [col'|e]; simpl; [|done].
      unfold mbind, M_bind, mret, M_ret in *. rewrite IH.
      by destruct (res_mapM min_max_scale df_x).
Qed.

(** C4. Which feature columns are scaled does not depend on the feature
    column.  Whatever [SharedData.is_categorical()] is, it is asked without
    naming a column, so a numerical and a categorical feature column are
    treated alike: both are passed through, or both are scaled to 0..10;
    never the numerical one scaled and the categorical one left. *)
Theorem normalize_ignores_feature_kind (lib : Library) (s : MissMixed) :
  let out := (__normalize lib [Scenario.numerical_feature;
                               Scenario.categorical_feature] s).1 in
  let scaled := [Standin.num 0; Standin.num 5; Standin.num 10] in
  ((SharedData_is_categorical lib (shared s) = true ∧
    out = OK [Scenario.numerical_feature; Scenario.categorical_feature]) ∨
   (SharedData_is_categorical lib (shared s) = false ∧
    out = OK [scaled; scaled])) ∧
  out ≠ OK [scaled; Scenario.categorical_feature].
Proof.
  intros out scaled. subst out. rewrite normalize_run.
  destruct (SharedData_is_categorical lib (shared s)); simpl.
  - split; [by left|]. by_evaluation.
  - split; [right; split; [done|]|]; by_evaluation.
Qed.

(** * The sentinel of observed columns *)

(** C5. Under the metric 'mse' the direction is -1 and the board starts at
    plus infinity; after a stage over two fully observed columns both
    entries are 1, not 0: [1 if self.metric_direction else 0] is 1 for
    either direction. *)
Theorem sentinel_is_one_when_minimising :
  let run := fit_transform Standin.lib Scenario.mse_object in
  raw_data Scenario.mse_object = Scenario.observed ∧
  metric_direction Scenario.mse_object = -1 ∧
  max_metric_tests Scenario.mse_object = [Float.PInf; Float.PInf] ∧
  run.1 = OK () ∧
  max_metric_tests run.2 = [Float.of_Z 1; Float.of_Z 1] ∧
  imputed_df run.2 = imputed_df Scenario.mse_object.
Proof. repeat apply conj; by_evaluation. Qed.

(** * Observed columns after a drop *)

(** C6. After an empty first column is dropped, the observed column is
    the first of the working table, and the stage looks for gaps in the
    first column of the raw table: the observed column is split, fitted
    and marked as updated, while the column with the gap is taken for an
    observed one, skipped, and keeps its initial fill. *)
Theorem observed_column_trained_after_drop :
  let run := fit_transform Standin.lib Scenario.shifted_object in
  working_data Scenario.shifted_object =
    [(1, [Standin.num 0; Standin.num 1; Standin.num 2; Standin.num 3; Standin.num 4]);
     (2, [Standin.num 1; Standin.num 2; Standin.num 3; Standin.num 4; Standin.nan])] ∧
  run.1 = OK () ∧
  trace run.2 =
    trace Scenario.shifted_object ++
    [MsgIteration 1 1;
     MsgImputingColumn 1 2; CallSplit 0; CallFit 0 0; CallPredict 0;
     CallPredict 0; MsgBest (Float.of_Z (-169)) (Float.of_Z (-24));
     CallPredict 0; MsgColumnUpdated;
     MsgImputingColumn 2 2; MsgNoNull;
     MsgAverage; MsgColumnsUpdated 1; MsgRule] ∧
  max_metric_tests run.2 = [Float.of_Z (-24); Float.of_Z 1] ∧
  imputed_df run.2 !! 1%nat =
    Some [Standin.num 1; Standin.num 2; Standin.num 3; Standin.num 4; Standin.num 0].
Proof. repeat split; by_evaluation. Qed.

(** * Cleaning *)

(** C8. The flags lose their alignment when more than one column is
    dropped.  With columns 0 and 1 empty and flags categorical,
    categorical, numerical, the table keeps column 2 and the flag list
    keeps the flag of column 1: deleting position 0 moved the others down
    before position 1 was deleted.  With columns 1 and 2 empty, the second
    deletion raises IndexError. *)
Theorem cleaning_misaligns_flags :
  let cleaned := __clean_working_data Scenario.two_empty_object in
  let failed := __clean_working_data Scenario.empty_tail_object in
  cleaned.1 = OK () ∧
  working_data cleaned.2 = [(2, [Standin.num 1; Standin.num 2; Standin.num 3])] ∧
  categorical_columns Scenario.two_empty_object !! 2%nat = Some false ∧
  categorical_columns cleaned.2 = [true] ∧
  failed.1 = Raise IndexError.
Proof. repeat split; by_evaluation. Qed.

(** * Further properties of the methods *)

(** ** Early stopping *)

Lemma within_tolerance_Forall (n : nat) (tol : Float.t) (window : list nat) :
  n ≠ 0%nat →
  ∃ b : bool,
    within_tolerance n tol window = OK b ∧
    (b = true ↔
     Forall (λ c, Float.ltb tol (Float.div (Float.of_Z (Z.of_nat c))
                                           (Float.of_Z (Z.of_nat n))) = false)
            window).
Proof.
  intros Hn. induction window as [|c window IH]; simpl.
  - exists true. by split.
  - rewrite bool_decide_eq_false_2 by done.
    destruct (Float.ltb tol _) eqn:Hc.
    + exists false. split; [done|]. split; [done|].
      intros H. apply Forall_cons in H as [H _]. congruence.
    + destruct IH as (b & -> & Hb). exists b. split; [done|].
      split.
      * intros Ht. constructor; [done|]. by apply Hb.
      * intros [_ H]%Forall_cons. by apply Hb.
Qed.

Lemma check_early_stopping_run (counts : list nat) (s : MissMixed) :
  __check_early_stopping counts s =
  (if early_stopping s
   then if bool_decide (iter_per_stopping s ≤ Z.of_nat (length counts))
        then within_tolerance (num_of_columns s) (tolerance_percentage s)
               (py_slice_from counts (-1 * iter_per_stopping s))
        else OK false
   else OK false, s).
Proof.
  unfold __check_early_stopping, mbind, M_bind, gets, lift, mret, M_ret. simpl.
  destruct (early_stopping s); [|done]. by case_bool_decide.
Qed.

Lemma py_slice_last {A} (l : list A) (k : Z) :
  1 ≤ k ≤ Z.of_nat (length l) →
  py_slice_from l (-1 * k) = drop (length l - Z.to_nat k) l.
Proof.
  intros Hk. unfold py_slice_from.
  rewrite bool_decide_eq_true_2 by lia. f_equal. lia.
Qed.

(** X1. With early stopping enabled, at least one column and a window of
    [k] stages, [1 <= k <= len(history)], [__check_early_stopping] answers
    True exactly when every one of the last [k] update counts, divided by
    the number of columns, is not above the tolerance; it leaves the object
    as it is. *)
Theorem early_stopping_window (counts : list nat) (s : MissMixed) :
  early_stopping s = true →
  num_of_columns s ≠ 0%nat →
  1 ≤ iter_per_stopping s ≤ Z.of_nat (length counts) →
  ∃ stop : bool,
    __check_early_stopping counts s = (OK stop, s) ∧
    (stop = true ↔
     Forall (λ c, Float.ltb (tolerance_percentage s)
                    (Float.div (Float.of_Z (Z.of_nat c))
                               (Float.of_Z (Z.of_nat (num_of_columns s))))
                  = false)
            (drop (length counts - Z.to_nat (iter_per_stopping s)) counts)).
Proof.
  intros Hes Hn Hk. rewrite check_early_stopping_run, Hes.
  rewrite bool_decide_eq_true_2 by lia. rewrite py_slice_last by done.
  destruct (within_tolerance_Forall (num_of_columns s) (tolerance_percentage s)
              (drop (length counts - Z.to_nat (iter_per_stopping s)) counts) Hn)
    as (b & -> & Hb).
  by exists b.
Qed.

(** X2. A window of zero stages is not an empty window: with
    [iter_per_stopping = 0] the slice [history[-0:]] is the whole history,
    so the answer is True exactly when every stage so far stayed within the
    tolerance. *)
Theorem early_stopping_window_zero (counts : list nat) (s : MissMixed) :
  early_stopping s = true →
  num_of_columns s ≠ 0%nat →
  iter_per_stopping s = 0 →
  ∃ stop : bool,
    __check_early_stopping counts s = (OK stop, s) ∧
    (stop = true ↔
     Forall (λ c, Float.ltb (tolerance_percentage s)
                    (Float.div (Float.of_Z (Z.of_nat c))
                               (Float.of_Z (Z.of_nat (num_of_columns s))))
                  = false)
            counts).
Proof.
  intros Hes Hn Hk. rewrite check_early_stopping_run, Hes, Hk.
  rewrite bool_decide_eq_true_2 by lia.
  replace (py_slice_from counts (-1 * 0)) with counts
    by (unfold py_slice_from; simpl; by rewrite Z.min_l, drop_0 by lia).
  destruct (within_tolerance_Forall (num_of_columns s) (tolerance_percentage s)
              counts Hn) as (b & -> & Hb).
  by exists b.
Qed.

(** ** Cleaning *)

Lemma with_categorical_columns_id (s : MissMixed) :
  with_categorical_columns (categorical_columns s) s = s.
Proof. by destruct s. Qed.

Lemma del_loop_run (dropped : list Z) (s : MissMixed) :
  ∃ flags,
    for_ dropped (λ i,
      flags ← gets categorical_columns;
      flags' ← lift (py_del flags i);
      modify (with_categorical_columns flags')) s
    = (match del_flags (categorical_columns s) dropped with
       | OK _ => OK ()
       | Raise e => Raise e
       end, with_categorical_columns flags s) ∧
    (∀ f, del_flags (categorical_columns s) dropped = OK f → flags = f).
Proof.
  set (body := λ i : Z,
         flags ← gets categorical_columns;
         flags' ← lift (py_del flags i);
         modify (with_categorical_columns flags')).
  assert (Hbody : ∀ i s, body i s =
            match py_del (categorical_columns s) i with
            | OK flags' => (OK (), with_categorical_columns flags' s)
            | Raise e => (Raise e, s)
            end).
  { intros i s0. unfold body, mbind, M_bind, gets, lift, modify. simpl.
    by destruct (py_del (categorical_columns s0) i). }
  revert s. induction dropped as [|i dropped IH]; intros s; simpl.
  - exists (categorical_columns s). rewrite with_categorical_columns_id.
    split; [done|]. by intros f [= <-].
  - rewrite bind_unfold, Hbody.
    destruct (py_del (categorical_columns s) i) as [flags'|e]; simpl.
    + destruct (IH (with_categorical_columns flags' s)) as (flags & -> & Hflags).
      simpl. by exists flags.
    + exists (categorical_columns s). by rewrite with_categorical_columns_id.
Qed.

(** What a cleaning that goes through leaves behind. *)
Lemma clean_working_data_OK (s s' : MissMixed) :
  __clean_working_data s = (OK (), s') →
  let dropped := columns_to_be_dropped (working_data s) in
  del_flags (categorical_columns s) dropped = OK (categorical_columns s') ∧
  working_data s' = drop_columns dropped (working_data s) ∧
  raw_data s' = raw_data s ∧
  trace s' = trace s ++ (if bool_decide (1 ≤ length dropped)%nat
                        then [MsgColumnsDropped dropped] else []).
Proof.
  unfold __clean_working_data. intros Hrun.
  apply bind_OK_inv in Hrun as (wd & sa & Ha & Hrun). injection Ha as <- <-.
  apply bind_OK_inv in Hrun as ([] & sb & Hb & Hrun).
  destruct (del_loop_run (columns_to_be_dropped (working_data s)) s)
    as (flags & Hloop & Hflags).
  rewrite Hloop in Hb.
  destruct (del_flags _ _) as [f|e] eqn:Hdel; [|discriminate].
  injection Hb as <-. rewrite (Hflags f eq_refl) in *.
  apply bind_OK_inv in Hrun as ([] & sc & Hc & Hrun).
  injection Hrun as <-. simpl.
  case_bool_decide.
  - unfold _log, mbind, M_bind, gets, emit, modify in Hc. simpl in Hc.
    injection Hc as <-. done.
  - injection Hc as <-. simpl. by rewrite app_nil_r.
Qed.

Lemma dropped_labels_sparse (wd : DataFrame) (c : Z * list cell) :
  c ∈ wd → sparse c → c.1 ∈ columns_to_be_dropped wd.
Proof.
  intros Hc Hs. unfold columns_to_be_dropped.
  apply list_elem_of_fmap. exists c. split; [done|].
  by apply list_elem_of_filter.
Qed.

(** X3. When [__clean_working_data] returns, every column left in the
    working table has at least two observed values, the columns left are
    columns of the table as it was, in their order, and the raw table is
    untouched. *)
Theorem cleaning_keeps_trainable_columns (s s' : MissMixed) :
  __clean_working_data s = (OK (), s') →
  Forall (λ c, (2 ≤ non_null_count c.2)%nat) (working_data s') ∧
  working_data s' `sublist_of` working_data s ∧
  raw_data s' = raw_data s.
Proof.
  intros Hrun. apply clean_working_data_OK in Hrun as (_ & -> & Hraw & _).
  split; [|split; [apply sublist_filter|done]].
  apply Forall_forall. intros c [Hlabel Hc]%list_elem_of_filter.
  destruct (decide (2 ≤ non_null_count c.2)%nat) as [|Hsparse]; [done|].
  destruct Hlabel. apply dropped_labels_sparse; [done|]. unfold sparse. lia.
Qed.

Lemma clean_working_data_returns (s : MissMixed) (f : list bool) :
  del_flags (categorical_columns s) (columns_to_be_dropped (working_data s)) = OK f →
  ∃ s', __clean_working_data s = (OK (), s').
Proof.
  intros Hdel. unfold __clean_working_data.
  rewrite bind_unfold. simpl. rewrite bind_unfold.
  destruct (del_loop_run (columns_to_be_dropped (working_data s)) s)
    as (flags & -> & _).
  rewrite Hdel. rewrite bind_unfold.
  case_bool_decide.
  - unfold _log, mbind, M_bind, gets, emit, modify. simpl. eauto.
  - simpl. eauto.
Qed.

Lemma filter_none {A} (P : A → Prop) `{∀ x, Decision (P x)} (l : list A) :
  Forall (λ x, ¬ P x) l → filter P l = [].
Proof.
  induction 1 as [|x l Hx _ IH]; [done|].
  by rewrite filter_cons_False.
Qed.

Lemma filter_all {A} (P : A → Prop) `{∀ x, Decision (P x)} (l : list A) :
  Forall P l → filter P l = l.
Proof.
  induction 1 as [|x l Hx _ IH]; [done|].
  by rewrite filter_cons_True, IH.
Qed.

Lemma with_working_data_id (s : MissMixed) :
  with_working_data (working_data s) s = s.
Proof. by destruct s. Qed.

Lemma drop_columns_nil (wd : DataFrame) : drop_columns [] wd = wd.
Proof.
  unfold drop_columns. apply filter_all, Forall_forall.
  intros c _. apply not_elem_of_nil.
Qed.

(** X4. On a table in which every column has at least two observed values,
    [__clean_working_data] returns and changes nothing: no column goes, no
    flag goes, nothing is printed. *)
Theorem cleaning_is_idle_on_trainable_table (s : MissMixed) :
  Forall (λ c, (2 ≤ non_null_count c.2)%nat) (working_data s) →
  __clean_working_data s = (OK (), s).
Proof.
  intros Hall.
  assert (Hnone : columns_to_be_dropped (working_data s) = []).
  { unfold columns_to_be_dropped.
    assert (filter (λ c : Z * list cell, (non_null_count c.2 ≤ 1)%nat)
                   (working_data s) = []) as ->; [|done].
    apply filter_none. eapply Forall_impl; [exact Hall|]. simpl. lia. }
  unfold __clean_working_data. rewrite bind_unfold. simpl.
  rewrite Hnone. simpl. rewrite !bind_unfold. simpl.
  rewrite drop_columns_nil.
  transitivity (OK (), with_working_data (working_data s) s); [done|].
  by rewrite with_working_data_id.
Qed.

Lemma py_del_length {A} (l l' : list A) (i : Z) :
  py_del l i = OK l' → S (length l') = length l.
Proof.
  unfold py_del. case_bool_decide as Hj; [|done]. intros [= <-].
  rewrite length_delete; [lia|]. apply lookup_lt_is_Some.
  destruct (bool_decide (i < 0)); lia.
Qed.

Lemma del_flags_length (flags f : list bool) (dropped : list Z) :
  del_flags flags dropped = OK f →
  (length f + length dropped = length flags)%nat.
Proof.
  revert flags. induction dropped as [|i dropped IH]; intros flags; simpl.
  - intros [= <-]. lia.
  - destruct (py_del flags i) as [flags'|] eqn:Hdel; simpl; [|done].
    intros Hrest. apply IH in Hrest. apply py_del_length in Hdel. lia.
Qed.

Lemma filter_ext_elem {A} (P Q : A → Prop) `{∀ x, Decision (P x)}
    `{∀ x, Decision (Q x)} (l : list A) :
  (∀ x, x ∈ l → P x ↔ Q x) → filter P l = filter Q l.
Proof.
  induction l as [|x l IH]; intros HPQ; [done|].
  rewrite !filter_cons.
  destruct (decide (P x)) as [HP|HP], (decide (Q x)) as [HQ|HQ].
  - f_equal. apply IH. intros y Hy. apply HPQ. by right.
  - destruct HQ. apply HPQ; [left|done].
  - destruct HP. apply HPQ; [left|done].
  - apply IH. intros y Hy. apply HPQ. by right.
Qed.

Lemma length_filter_complement {A} (P : A → Prop) `{∀ x, Decision (P x)}
    (l : list A) :
  (length (filter P l) + length (filter (λ x, ¬ P x) l) = length l)%nat.
Proof.
  induction l as [|x l IH]; [done|].
  rewrite !filter_cons. destruct (decide (P x)).
  - rewrite decide_False by auto. simpl. lia.
  - rewrite decide_True by auto. simpl. lia.
Qed.

Lemma NoDup_fst_unique {A B} (l : list (A * B)) (k : A) (v v' : B) :
  NoDup l.*1 → (k, v) ∈ l → (k, v') ∈ l → v = v'.
Proof.
  induction l as [|[k0 v0] l IH]; simpl; [by intros _ ?%elem_of_nil|].
  intros [Hk0 Hnd]%NoDup_cons [Hv|Hv]%elem_of_cons [Hv'|Hv']%elem_of_cons.
  - congruence.
  - injection Hv as -> ->. destruct Hk0.
    apply list_elem_of_fmap. by exists (k0, v').
  - injection Hv' as -> ->. destruct Hk0.
    apply list_elem_of_fmap. by exists (k0, v).
  - by apply IH.
Qed.

Lemma dropped_labels_distinct (wd : DataFrame) (c : Z * list cell) :
  NoDup wd.*1 → c ∈ wd →
  c.1 ∈ columns_to_be_dropped wd ↔ sparse c.
Proof.
  intros Hnd Hc. split; [|by apply dropped_labels_sparse].
  unfold columns_to_be_dropped.
  intros (c' & Hlabel & [Hs Hc']%list_elem_of_filter)%list_elem_of_fmap.
  destruct c as [k v], c' as [k' v']. simpl in *. subst k'.
  by rewrite (NoDup_fst_unique wd k v v' Hnd Hc Hc').
Qed.

Lemma length_drop_columns (wd : DataFrame) :
  NoDup wd.*1 →
  (length (drop_columns (columns_to_be_dropped wd) wd)
   + length (columns_to_be_dropped wd) = length wd)%nat.
Proof.
  intros Hnd. unfold drop_columns.
  rewrite (filter_ext_elem _ (λ c, ¬ sparse c)).
  2:{ intros c Hc. by rewrite (dropped_labels_distinct _ _ Hnd Hc). }
  unfold columns_to_be_dropped. rewrite length_fmap, Nat.add_comm.
  apply (length_filter_complement sparse).
Qed.

(** X5. When the labels of the table are distinct and there are as many
    flags as columns, a cleaning that returns leaves as many flags as
    columns. *)
Theorem cleaning_keeps_flag_count (s s' : MissMixed) :
  NoDup (working_data s).*1 →
  length (categorical_columns s) = length (working_data s) →
  __clean_working_data s = (OK (), s') →
  length (categorical_columns s') = length (working_data s').
Proof.
  intros Hnd Hlen Hrun.
  apply clean_working_data_OK in Hrun as (Hdel & Hwd & _).
  apply del_flags_length in Hdel. rewrite Hwd.
  pose proof (length_drop_columns _ Hnd). lia.
Qed.

Lemma filter_only {A} (P : A → Prop) `{∀ x, Decision (P x)} (l : list A)
    (p : nat) (c : A) :
  l !! p = Some c → P c →
  (∀ q c', q ≠ p → l !! q = Some c' → ¬ P c') →
  filter P l = [c] ∧ filter (λ x, ¬ P x) l = delete p l.
Proof.
  revert p. induction l as [|x l IH]; intros p Hp Hc Hothers; [done|].
  destruct p as [|p]; simpl in *.
  - injection Hp as ->.
    assert (Forall (λ y, ¬ P y) l) as Hl.
    { apply Forall_lookup. intros q y Hq. by apply (Hothers (S q)). }
    rewrite filter_cons_True by done.
    rewrite (filter_cons_False (λ y, ¬ P y)) by auto.
    split; [by rewrite (filter_none P l Hl)|by apply filter_all].
  - assert (¬ P x) as Hx by (by apply (Hothers 0%nat)).
    rewrite filter_cons_False by done.
    rewrite (filter_cons_True (λ y, ¬ P y)) by done.
    destruct (IH p Hp Hc) as [-> ->]; [|done].
    intros q c' Hq. apply (Hothers (S q)). lia.
Qed.

Lemma default_label (wd : list (Z * list cell)) (q : nat) (c : Z * list cell) :
  wd.*1 = Z.of_nat <$> seq 0 (length wd) →
  wd !! q = Some c → c.1 = Z.of_nat q.
Proof.
  intros Hlabels Hq.
  assert (wd.*1 !! q = Some c.1) as Hl by (by rewrite list_lookup_fmap, Hq).
  rewrite Hlabels, list_lookup_fmap in Hl.
  rewrite lookup_seq_lt in Hl by (by eapply lookup_lt_Some).
  simpl in Hl. by injection Hl as <-.
Qed.

(** X6. With the default labels (each column labelled by its position),
    when exactly one column has at most one observed value and the flag
    list reaches that position, [__clean_working_data] returns and removes
    that column and the flag at its position, nothing else: flags that
    were aligned with the columns stay aligned. *)
Theorem cleaning_single_drop_aligned (s : MissMixed) (p : nat)
    (c : Z * list cell) :
  (working_data s).*1 = Z.of_nat <$> seq 0 (length (working_data s)) →
  working_data s !! p = Some c →
  sparse c →
  (∀ q c', q ≠ p → working_data s !! q = Some c' → ¬ sparse c') →
  (p < length (categorical_columns s))%nat →
  ∃ s', __clean_working_data s = (OK (), s') ∧
        categorical_columns s' = delete p (categorical_columns s) ∧
        working_data s' = delete p (working_data s).
Proof.
  intros Hlabels Hp Hc Hothers Hflags.
  destruct (filter_only sparse _ p c Hp Hc Hothers) as [Hsparse Hrest].
  assert (Hdropped : columns_to_be_dropped (working_data s) = [Z.of_nat p]).
  { unfold columns_to_be_dropped.
    assert (filter (λ c0 : Z * list cell, (non_null_count c0.2 ≤ 1)%nat)
                   (working_data s) = [c]) as -> by exact Hsparse.
    simpl. by rewrite (default_label _ p c Hlabels Hp). }
  assert (Hdel : del_flags (categorical_columns s)
                   (columns_to_be_dropped (working_data s))
                 = OK (delete p (categorical_columns s))).
  { rewrite Hdropped. simpl. unfold py_del. cbv zeta.
    rewrite (bool_decide_eq_false_2 (Z.of_nat p < 0)) by lia.
    rewrite bool_decide_eq_true_2 by lia. simpl. by rewrite Nat2Z.id. }
  destruct (clean_working_data_returns s _ Hdel) as [s' Hrun].
  exists s'. split; [done|].
  apply clean_working_data_OK in Hrun as (Hdel' & -> & _).
  rewrite Hdel in Hdel'. injection Hdel' as <-. split; [done|].
  rewrite Hdropped. etrans; [|exact Hrest]. unfold drop_columns.
  apply filter_ext_elem. intros c' [q Hq]%list_elem_of_lookup.
  rewrite (default_label _ q c' Hlabels Hq).
  rewrite list_elem_of_singleton. split.
  - intros Hne Hs. destruct (decide (q = p)) as [->|Hqp]; [done|].
    by apply (Hothers q c').
  - intros Hns ->%(inj Z.of_nat).
    pose proof (eq_trans (eq_sym Hq) Hp) as Heq. injection Heq as ->. done.
Qed.

(** ** Parts of the object that a method keeps *)

#[local] Instance kept_preorder {B} (f : MissMixed → B) : PreOrder (kept f).
Proof. split; unfold kept; [done|]. intros s1 s2 s3 H12 H23. congruence. Qed.

(** Takes a method apart and closes the assignments that do not touch the
    part of the object in question; [weaken] turns a method that only
    prints into one that keeps that part. *)
Ltac kept_go weaken :=
  repeat first
    [ solve [eauto 2 with respects]
    | solve [apply weaken; eauto 2 with respects]
    | respects_step ];
  try (hnf; done).

(** ** Categorical encoding, column by column *)

Lemma encode_loop_others (j : nat) (l : list bool) (cc cc' : list nat)
    (s s' : MissMixed) :
  for_acc (imap (λ i, pair (j + i)%nat) l) cc encode_column s = (OK cc', s') →
  length (working_data s') = length (working_data s) ∧
  (∀ i, (∀ k, i = (j + k)%nat → l !! k ≠ Some true) →
        working_data s' !! i = working_data s !! i ∧
        column_to_encoder s' !! i = column_to_encoder s !! i).
Proof.
  revert j cc s. induction l as [|flag l IH]; intros j cc s Hrun.
  { by injection Hrun as _ <-. }
  rewrite imap_cons in Hrun. simpl in Hrun.
  apply bind_OK_inv in Hrun as (cc1 & s1 & Hstep & Hrun).
  rewrite (imap_ext _ (λ i, pair (S j + i)%nat)) in Hrun
    by (intros; simpl; f_equal; lia).
  apply IH in Hrun as [Hlen Hothers].
  apply encode_column_OK in Hstep. simpl in Hstep.
  rewrite Nat.add_0_r in Hstep.
  split.
  - rewrite Hlen. destruct flag.
    + destruct Hstep as (? & ? & ? & ? & _ & _ & -> & _).
      apply length_insert.
    + by destruct Hstep as [-> _].
  - intros i Hi. destruct (Hothers i) as [-> ->].
    { intros k ->. apply (Hi (S k)). lia. }
    destruct flag.
    + destruct Hstep as (? & ? & ? & ? & _ & _ & -> & ->).
      assert (i ≠ j) by (intros ->; by apply (Hi 0%nat); [lia|]).
      split; [by apply list_lookup_insert_ne|by apply lookup_insert_ne].
    + by destruct Hstep as [-> ->].
Qed.

Lemma process_categorical_data_flags :
  respects (kept categorical_columns) __process_categorical_data.
Proof.
  assert (∀ {A} (m : M A), respects trace_only m →
                           respects (kept categorical_columns) m) as Hw.
  { intros A m. apply respects_weaken. by intros s s' [t ->]. }
  unfold __process_categorical_data, encode_column. kept_go Hw.
Qed.

(** Columns that are not flagged categorical go through the encoding step
    as they are, and get no encoder. *)
Lemma process_categorical_data_others (s s' : MissMixed) (i : nat) :
  __process_categorical_data s = (OK (), s') →
  categorical_columns s !! i ≠ Some true →
  working_data s' !! i = working_data s !! i ∧
  column_to_encoder s' !! i = None.
Proof.
  unfold __process_categorical_data. intros Hrun Hflag.
  apply bind_OK_inv in Hrun as ([] & sa & Ha & Hrun). injection Ha as <-.
  apply bind_OK_inv in Hrun as (wd0 & sb & Hb & Hrun). injection Hb as _ <-.
  apply bind_OK_inv in Hrun as (flags & sc & Hc & Hrun). injection Hc as <- <-.
  apply bind_OK_inv in Hrun as (cc & sd & Hloop & Hrun).
  injection Hrun as <-. simpl in *.
  apply (encode_loop_others 0) in Hloop as [_ Hothers].
  destruct (Hothers i) as [-> ->]; [|done].
  intros k ->. by rewrite Nat.add_0_l in Hflag.
Qed.

Lemma process_categorical_data_length (s s' : MissMixed) :
  __process_categorical_data s = (OK (), s') →
  length (working_data s') = length (working_data s).
Proof.
  unfold __process_categorical_data. intros Hrun.
  apply bind_OK_inv in Hrun as ([] & sa & Ha & Hrun). injection Ha as <-.
  apply bind_OK_inv in Hrun as (wd0 & sb & Hb & Hrun). injection Hb as _ <-.
  apply bind_OK_inv in Hrun as (flags & sc & Hc & Hrun). injection Hc as <- <-.
  apply bind_OK_inv in Hrun as (cc & sd & Hloop & Hrun).
  injection Hrun as <-. simpl in *.
  by apply (encode_loop_others 0) in Hloop as [-> _].
Qed.

Lemma assign_notna_isna (enc : LabelEncoder.t) (col codes : list cell) :
  res_mapM (LabelEncoder.encode_one enc) (filter (λ c, notna c = true) col)
    = OK codes →
  isna <$> assign_notna col codes = isna <$> col.
Proof.
  revert codes. induction col as [|c0 col IH]; intros codes Hcodes; [done|].
  rewrite filter_cons in Hcodes. cbn [assign_notna].
  destruct (decide (notna c0 = true)) as [Hc0|Hc0].
  - rewrite Hc0.
    apply res_mapM_OK_cons in Hcodes as (y & ys & Hy & Hys & ->).
    rewrite !fmap_cons, (IH ys Hys). f_equal.
    unfold LabelEncoder.encode_one in Hy.
    destruct (list_find _ _) as [[i ?]|]; [|done]. injection Hy as <-.
    unfold notna in Hc0. by destruct (isna c0).
  - apply not_true_is_false in Hc0. rewrite Hc0.
    by rewrite !fmap_cons, (IH codes).
Qed.

Lemma encode_loop_present (j : nat) (l : list bool) (cc cc' : list nat)
    (s s' : MissMixed) :
  for_acc (imap (λ i, pair (j + i)%nat) l) cc encode_column s = (OK cc', s') →
  ∀ k, l !! k = Some true → is_Some (working_data s !! (j + k)%nat).
Proof.
  revert j cc s. induction l as [|flag l IH]; intros j cc s Hrun k Hk; [done|].
  rewrite imap_cons in Hrun. simpl in Hrun.
  apply bind_OK_inv in Hrun as (cc1 & s1 & Hstep & Hrun).
  rewrite (imap_ext _ (λ i, pair (S j + i)%nat)) in Hrun
    by (intros; simpl; f_equal; lia).
  pose proof (IH _ _ _ Hrun) as Hrest.
  apply encode_column_OK in Hstep. simpl in Hstep.
  rewrite Nat.add_0_r in Hstep.
  destruct k as [|k]; simpl in Hk.
  - injection Hk as ->. rewrite Nat.add_0_r.
    destruct Hstep as (? & ? & ? & ? & -> & _). eauto.
  - specialize (Hrest k Hk).
    replace (j + S k)%nat with (S j + k)%nat by lia.
    apply lookup_lt_is_Some. apply lookup_lt_is_Some in Hrest.
    destruct flag.
    + destruct Hstep as (? & ? & ? & ? & _ & _ & Hwd & _).
      assert (length (working_data s1) = length (working_data s)) as Hlen
        by (rewrite Hwd; apply length_insert).
      lia.
    + destruct Hstep as [Hwd _]. by rewrite Hwd in Hrest.
Qed.

Lemma process_categorical_data_present (s s' : MissMixed) (i : nat) :
  __process_categorical_data s = (OK (), s') →
  categorical_columns s !! i = Some true →
  is_Some (working_data s !! i).
Proof.
  unfold __process_categorical_data. intros Hrun Hflag.
  apply bind_OK_inv in Hrun as ([] & sa & Ha & Hrun). injection Ha as <-.
  apply bind_OK_inv in Hrun as (wd0 & sb & Hb & Hrun). injection Hb as _ <-.
  apply bind_OK_inv in Hrun as (flags & sc & Hc & Hrun). injection Hc as <- <-.
  apply bind_OK_inv in Hrun as (cc & sd & Hloop & Hrun).
  by apply (encode_loop_present 0 _ _ _ _ _ Hloop i).
Qed.

(** X7. The encoding step keeps the shape and the gaps of the working
    table: when [__process_categorical_data] returns, the table has as
    many columns as before, every column has its label, and each of its
    entries is missing exactly where it was missing before. *)
Theorem encoding_keeps_missingness (s s' : MissMixed) :
  __process_categorical_data s = (OK (), s') →
  length (working_data s') = length (working_data s) ∧
  ∀ i label col,
    working_data s !! i = Some (label, col) →
    ∃ col', working_data s' !! i = Some (label, col') ∧
            isna <$> col' = isna <$> col.
Proof.
  intros Hrun. split; [by apply process_categorical_data_length|].
  intros i label col Hcol.
  destruct (decide (categorical_columns s !! i = Some true)) as [Hflag|Hflag].
  - destruct (process_categorical_data_encodes _ _ _ _ _ Hrun Hflag Hcol)
      as (encoder & codes & Hft & _ & Hwd).
    exists (assign_notna col codes). split; [done|].
    unfold LabelEncoder.fit_transform in Hft.
    destruct (LabelEncoder.fit _) as [enc|]; simpl in Hft; [|done].
    unfold LabelEncoder.transform in Hft.
    destruct (res_mapM _ _) as [codes'|] eqn:Hcodes; simpl in Hft; [|done].
    injection Hft as <- <-. by eapply assign_notna_isna.
  - destruct (process_categorical_data_others _ _ i Hrun Hflag) as [Hwd _].
    exists col. by rewrite Hwd.
Qed.

(** X8. When [__process_categorical_data] returns, the flags are as they
    were and [column_to_encoder] has an encoder exactly at the positions
    flagged categorical, so [result] finds the encoder of every column it
    decodes. *)
Theorem encoders_at_flagged_positions (s s' : MissMixed) (i : nat) :
  __process_categorical_data s = (OK (), s') →
  categorical_columns s' = categorical_columns s ∧
  (is_Some (column_to_encoder s' !! i) ↔ categorical_columns s' !! i = Some true).
Proof.
  intros Hrun.
  pose proof (process_categorical_data_flags s) as Hflags.
  rewrite Hrun in Hflags. hnf in Hflags. simpl in Hflags.
  split; [done|]. rewrite Hflags. split.
  - intros Henc.
    destruct (decide (categorical_columns s !! i = Some true)) as [|Hflag];
      [done|].
    destruct (process_categorical_data_others _ _ i Hrun Hflag) as [_ Hnone].
    rewrite Hnone in Henc. by destruct Henc.
  - intros Hflag.
    destruct (process_categorical_data_present _ _ i Hrun Hflag)
      as [[label col] Hcol].
    destruct (process_categorical_data_encodes _ _ _ _ _ Hrun Hflag Hcol)
      as (encoder & codes & _ & Henc & _).
    by rewrite Henc.
Qed.

(** ** What a run keeps *)

Section run_respects.
Context (lib : Library) (R : relation MissMixed) `{!PreOrder R}.
Hypothesis R_trace : ∀ s s', trace_only s s' → R s s'.
Hypothesis R_board : ∀ v s, R s (with_max_metric_tests v s).
Hypothesis R_shared : ∀ v s, R s (with_shared v s).
Hypothesis R_metric : ∀ v s, R s (with_metric v s).
Hypothesis R_column : ∀ imputer model col,
  respects R (__process_each_column lib imputer model col).

Lemma R_trace_only {A} (m : M A) : respects trace_only m → respects R m.
Proof. by apply respects_weaken. Qed.

Lemma can_impute_respects col score : respects R (__can_impute col score).
Proof.
  intros s. rewrite can_impute_run.
  destruct (max_metric_tests s !! col); [|reflexivity].
  destruct (Float.ltb _ _); [apply R_board|reflexivity].
Qed.

Lemma process_column_respects imputer col_idx count :
  respects R (process_column lib imputer col_idx count).
Proof.
  pose proof can_impute_respects. pose proof R_column.
  unfold process_column, __set_metric.
  repeat first
    [ solve [eauto 2 with respects]
    | solve [apply R_trace_only; eauto 2 with respects]
    | respects_step ];
  first [apply R_shared | apply R_metric].
Qed.

Lemma process_each_imputer_respects imputer :
  respects R (__process_each_imputer lib imputer).
Proof.
  pose proof process_column_respects.
  unfold __process_each_imputer.
  repeat first
    [ solve [eauto 2 with respects]
    | solve [apply R_trace_only; eauto 2 with respects]
    | respects_step ].
Qed.

Lemma iteration_respects total step counts :
  respects R (iteration lib total step counts).
Proof.
  pose proof process_each_imputer_respects.
  pose proof check_early_stopping_trace_only.
  unfold iteration.
  repeat first
    [ solve [eauto 2 with respects]
    | solve [apply R_trace_only; eauto 2 with respects]
    | respects_step ].
Qed.

Lemma fit_transform_respects : respects R (fit_transform lib).
Proof.
  pose proof iteration_respects.
  unfold fit_transform.
  repeat first
    [ solve [eauto 2 with respects]
    | solve [apply R_trace_only; eauto 2 with respects]
    | respects_step ].
Qed.

End run_respects.

#[local] Hint Resolve normalize_trace_only dataset_preparation_trace_only
  trial_trace_only check_early_stopping_trace_only : respects.

Lemma trace_only_configuration {A} (m : M A) :
  respects trace_only m → respects (kept configuration) m.
Proof. apply respects_weaken. by intros s s' [t ->]. Qed.

Lemma process_each_column_configuration lib imputer model col :
  respects (kept configuration) (__process_each_column lib imputer model col).
Proof.
  unfold __process_each_column, __apply_best_model, __can_impute.
  kept_go @trace_only_configuration.
Qed.

(** X9. [fit_transform] works on the imputed table, the score board and
    its scratch values only: whether it returns or raises, the raw table,
    the working table, the flags, the encoders, the number of columns, the
    direction of the metric and the settings of the run are what they
    were. *)
Theorem fit_transform_keeps_configuration (lib : Library) (s : MissMixed) :
  configuration (fit_transform lib s).2 = configuration s.
Proof.
  apply (fit_transform_respects lib (kept configuration)).
  - by intros s1 s2 [t ->].
  - done.
  - done.
  - done.
  - apply process_each_column_configuration.
Qed.

(** ** Observed cells *)

Lemma positions_elem (p : cell → bool) (col : list cell) (r : nat) :
  r ∈ positions p col ↔ ∃ v, col !! r = Some v ∧ p v = true.
Proof.
  unfold positions. rewrite list_elem_of_fmap. split.
  - intros ([i v] & -> & [Hp Hin]%list_elem_of_filter).
    apply elem_of_lookup_imap in Hin as (i' & v' & [= -> ->] & Hv).
    by exists v'.
  - intros (v & Hv & Hp). exists (r, v). split; [done|].
    apply list_elem_of_filter. split; [done|].
    apply elem_of_lookup_imap. by exists r, v.
Qed.

Lemma loc_assign_length (col col' : list cell) (index : list nat)
    (values : list Float.t) :
  loc_assign col index values = OK col' → length col' = length col.
Proof.
  revert col values. induction index as [|i index IH]; intros col [|v values];
    simpl; try done.
  - by intros [= <-].
  - case_bool_decide; [|done]. intros Hrest. apply IH in Hrest.
    by rewrite length_insert in Hrest.
Qed.

Lemma loc_assign_lookup_other (col col' : list cell) (index : list nat)
    (values : list Float.t) (r : nat) :
  loc_assign col index values = OK col' → r ∉ index → col' !! r = col !! r.
Proof.
  revert col values. induction index as [|i index IH]; intros col [|v values];
    simpl; try done.
  - by intros [= <-].
  - case_bool_decide; [|done]. intros Hrest [Hri Hr]%not_elem_of_cons.
    rewrite (IH _ _ Hrest Hr). by apply list_lookup_insert_ne.
Qed.

(** What [__dataset_preparation] hands over for imputation: the positions
    at which the target column of the working table is missing. *)
Lemma dataset_preparation_OK lib col ds ids (s s' : MissMixed) :
  __dataset_preparation lib col s = (OK (ds, ids), s') →
  ∃ label target,
    working_data s !! col = Some (label, target) ∧
    imp_y_index ids = positions isna target ∧
    length (imp_x ids) = length (imp_y_index ids) ∧
    (col < length (imputed_df s))%nat.
Proof.
  unfold __dataset_preparation. intros Hrun.
  apply bind_OK_inv in Hrun as (imputed & sa & Ha & Hrun). injection Ha as <- <-.
  apply bind_OK_inv in Hrun as ([] & sa & Ha & Hrun).
  case_bool_decide as Hcol; [|done]. injection Ha as <-.
  apply bind_OK_inv in Hrun as (wd & sa & Ha & Hrun). injection Ha as <- <-.
  apply bind_OK_inv in Hrun as ([label target] & sa & Ha & Hrun).
  unfold lift in Ha. injection Ha as Htarget <-.
  apply bind_OK_inv in Hrun as (features & sa & Ha & Hrun).
  rewrite normalize_run in Ha. injection Ha as _ <-.
  apply bind_OK_inv in Hrun as (x_nm & sa & Ha & Hrun). injection Ha as _ <-.
  apply bind_OK_inv in Hrun as (x_m & sa & Ha & Hrun).
  unfold lift in Ha. injection Ha as Hxm <-.
  apply bind_OK_inv in Hrun as (ts & sa & Ha & Hrun). injection Ha as _ <-.
  apply bind_OK_inv in Hrun as ([] & sa & Ha & Hrun). injection Ha as <-.
  apply bind_OK_inv in Hrun as (split & sa & Ha & Hrun). injection Ha as _ <-.
  injection Hrun as _ <- _. simpl in *.
  exists label, target. split.
  { by destruct (working_data s !! col) as [[]|]; simplify_eq/=. }
  split; [done|]. split; [|done].
  clear -Hxm. unfold loc_rows in Hxm.
  revert x_m Hxm. induction (positions isna target) as [|i l IH];
    intros x_m Hxm; simpl in *.
  - by injection Hxm as <-.
  - destruct (row_at _ i); simpl in Hxm; [|done].
    destruct (res_mapM _ l) as [rows|]; simpl in Hxm; [|done].
    injection Hxm as <-. simpl. f_equal. by apply IH.
Qed.

#[local] Instance under_preorder (I : MissMixed → Prop) (R : relation MissMixed)
  `{!PreOrder R} : PreOrder (under I R).
Proof.
  split.
  - intros s HI. split; [done|reflexivity].
  - intros s1 s2 s3 H12 H23 HI. destruct (H12 HI) as [HI2 HR12].
    destruct (H23 HI2) as [HI3 HR23]. split; [done|]. by etrans.
Qed.

#[local] Instance observed_kept_preorder : PreOrder observed_kept.
Proof.
  split.
  - by intros s.
  - intros s1 s2 s3 (Hw12 & Hl12 & Ho12) (Hw23 & Hl23 & Ho23).
    split; [congruence|]. split; [congruence|].
    intros j label col r v Hcol Hr Hv.
    etrans; [|by apply (Ho12 j label col r v)].
    apply (Ho23 j label col r v); [|done..]. by rewrite Hw12.
Qed.

Lemma trace_only_observed_kept (s s' : MissMixed) :
  trace_only s s' → observed_kept s s'.
Proof. by intros [t ->]. Qed.

Lemma board_observed_kept (v : list Float.t) (s : MissMixed) :
  observed_kept s (with_max_metric_tests v s).
Proof. done. Qed.

Lemma trace_only_under_targets {A} col label target (m : M A) :
  respects trace_only m →
  respects (under (targets col label target) observed_kept) m.
Proof.
  apply respects_weaken. intros s s' [t ->] HI. by split.
Qed.

Lemma can_impute_under_targets col label target c score :
  respects (under (targets col label target) observed_kept)
           (__can_impute c score).
Proof.
  intros s. rewrite can_impute_run.
  destruct (max_metric_tests s !! c); [|reflexivity].
  destruct (Float.ltb _ _); [|reflexivity].
  intros HI. by split.
Qed.

Lemma apply_best_model_run model ids col (s : MissMixed) :
  __apply_best_model model ids col s =
  let s1 := with_trace (trace s ++ [CallPredict col]) s in
  match model (imp_x ids) with
  | Raise e => (Raise e, s1)
  | OK preds =>
      match imputed_df s !! col with
      | None => (Raise KeyError, s1)
      | Some column =>
          match loc_assign column (imp_y_index ids) preds with
          | Raise e => (Raise e, s1)
          | OK column' =>
              (OK (), with_imputed_df (<[col := column']> (imputed_df s)) s1)
          end
      end
  end.
Proof.
  unfold __apply_best_model, mbind, M_bind, emit, modify, gets, lift. simpl.
  destruct (model (imp_x ids)); [|done].
  destruct (imputed_df s !! col) as [column|]; simpl; [|done].
  by destruct (loc_assign column (imp_y_index ids) a).
Qed.

(** Writing the predictions of a model into the rows where the target is
    missing leaves the observed rows, the other columns and the shape of
    the imputed table alone. *)
Lemma apply_best_model_under_targets model ids col label target :
  imp_y_index ids = positions isna target →
  respects (under (targets col label target) observed_kept)
           (__apply_best_model model ids col).
Proof.
  intros Hindex s HI. rewrite apply_best_model_run. cbv zeta.
  destruct (model (imp_x ids)) as [preds|e]; [|by split].
  destruct (imputed_df s !! col) as [column|] eqn:Hcolumn; [|by split].
  destruct (loc_assign column (imp_y_index ids) preds) as [column'|e] eqn:Hassign;
    [|by split].
  split; [done|]. split; [done|]. split.
  - simpl. rewrite list_fmap_insert, (loc_assign_length _ _ _ _ Hassign).
    apply list_insert_id. by rewrite list_lookup_fmap, Hcolumn.
  - intros j label' col' r v Hcol Hr Hv. unfold imputed_cell. simpl.
    destruct (decide (j = col)) as [->|Hj].
    + rewrite list_lookup_insert_eq by (by eapply lookup_lt_Some).
      rewrite Hcolumn. simpl.
      apply (loc_assign_lookup_other _ _ _ _ _ Hassign).
      rewrite Hindex, positions_elem. intros (v' & Hv' & Hna).
      pose proof (eq_trans (eq_sym Hcol) HI) as Heq. injection Heq as -> ->.
      rewrite Hr in Hv'. injection Hv' as <-.
      unfold notna in Hv. by rewrite Hna in Hv.
    + by rewrite list_lookup_insert_ne.
Qed.

Lemma process_each_column_observed lib imputer model col :
  respects observed_kept (__process_each_column lib imputer model col).
Proof.
  intros s. unfold __process_each_column. rewrite bind_unfold.
  pose proof (dataset_preparation_trace_only lib col s) as Hprep.
  destruct (__dataset_preparation lib col s) as [[[ds ids]|e] s1] eqn:Hrun;
    simpl in *; [|by apply trace_only_observed_kept].
  apply dataset_preparation_OK in Hrun as (label & target & Htarget & Hindex & _).
  etrans; [by apply trace_only_observed_kept|].
  assert (HI : targets col label target s1).
  { destruct Hprep as [t ->]. exact Htarget. }
  assert (respects (under (targets col label target) observed_kept)
    (if bool_decide (2 ≤ length (y_test ds))%nat then
       results ← for_acc (seq 0 (trials imputer)) [] (trial lib model col ds);
       d ← gets metric_direction;
       best_index ← lift (argmax (map (λ r, Float.mul (tr_val r) (Float.of_Z d)) results));
       best ← lift (of_option IndexError (results !! best_index));
       let score := {| cs_train := [tr_train best]; cs_val := [tr_val best] |} in
       _log 2 (MsgBest (tr_train best) (tr_val best));;
       ok ← __can_impute col (tr_val best);
       if ok : bool then
         __apply_best_model (tr_model best) ids col;;
         _log 2 MsgColumnUpdated;;
         mret (true, score)
       else mret (false, score)
     else mret (false, {| cs_train := []; cs_val := [] |}))) as Hrest.
  { pose proof (can_impute_under_targets col label target).
    pose proof (λ m, apply_best_model_under_targets m ids col label target
                  Hindex).
    pose proof (for_acc_trial_trace_only).
    repeat first
      [ solve [eauto 2 with respects]
      | solve [apply trace_only_under_targets; eauto 2 with respects]
      | progress cbv zeta
      | respects_step ]. }
  by destruct (Hrest s1 HI).
Qed.

Lemma fit_transform_observed_kept (lib : Library) (s : MissMixed) :
  observed_kept s (fit_transform lib s).2.
Proof.
  apply (fit_transform_respects lib observed_kept).
  - apply trace_only_observed_kept.
  - done.
  - done.
  - done.
  - apply process_each_column_observed.
Qed.

(** X10. Whatever the estimators predict, and whether the run returns or
    raises, [fit_transform] leaves the imputed table with the columns it
    had, each of the length it had. *)
Theorem fit_transform_keeps_shape (lib : Library) (s : MissMixed) :
  length <$> imputed_df (fit_transform lib s).2 = length <$> imputed_df s.
Proof. by destruct (fit_transform_observed_kept lib s) as (_ & ? & _). Qed.

(** X11. [fit_transform] never overwrites an observed value: at every
    place where the working table holds a value that is not missing, the
    imputed table holds after the run what it held before, whatever the
    estimators predict and whether the run returns or raises. *)
Theorem fit_transform_keeps_observed_cells (lib : Library) (s : MissMixed)
    (j r : nat) (label : Z) (col : list cell) (v : cell) :
  working_data s !! j = Some (label, col) →
  col !! r = Some v →
  notna v = true →
  imputed_cell (fit_transform lib s).2 j r = imputed_cell s j r.
Proof.
  destruct (fit_transform_observed_kept lib s) as (_ & _ & Hcells).
  apply Hcells.
Qed.

(** ** The count of updated columns *)

Lemma returns_ret {A} (P : A → Prop) (a : A) : P a → returns P (mret a).
Proof. intros HP s a' s' [= <- _]. done. Qed.

Lemma returns_bind {A B} (P : B → Prop) (m : M A) (k : A → M B) :
  (∀ a, returns P (k a)) → returns P (m ≫= k).
Proof.
  intros Hk s b s' Hrun.
  apply bind_OK_inv in Hrun as (a & s1 & _ & Hrun). by eapply Hk.
Qed.

Lemma process_column_count lib imputer col_idx count :
  returns (λ c, c = count ∨ c = S count)
          (process_column lib imputer col_idx count).
Proof.
  unfold process_column.
  repeat (apply returns_bind; intros ?).
  destruct (set_model imputer _).
  - repeat (apply returns_bind; intros ?).
    destruct (negb _).
    + repeat (apply returns_bind; intros ?). apply returns_ret. by left.
    + apply returns_bind. intros [[] ?]; apply returns_ret; auto.
  - apply returns_bind; intros ?. apply returns_ret. by left.
Qed.

Lemma for_acc_count lib imputer (l : list nat) (count c : nat) (s s' : MissMixed) :
  for_acc l count (process_column lib imputer) s = (OK c, s') →
  (count ≤ c ≤ count + length l)%nat.
Proof.
  revert count s. induction l as [|x l IH]; intros count s; simpl.
  - intros [= <- _]. lia.
  - intros Hrun. apply bind_OK_inv in Hrun as (c1 & s1 & Hstep & Hrun).
    apply process_column_count in Hstep. apply IH in Hrun. lia.
Qed.

(** X12. The number of updated columns that [__process_each_imputer]
    reports for a stage is at most the number of columns, so the ratio the
    early-stopping rule looks at is never above 1. *)
Theorem updated_count_bounded lib imputer (s s' : MissMixed) (count : nat) :
  __process_each_imputer lib imputer s = (OK count, s') →
  (count ≤ num_of_columns s)%nat.
Proof.
  unfold __process_each_imputer. intros Hrun.
  apply bind_OK_inv in Hrun as (n & sa & Ha & Hrun). injection Ha as <- <-.
  apply bind_OK_inv in Hrun as (c & sb & Hloop & Hrun).
  apply for_acc_count in Hloop. rewrite length_seq in Hloop.
  apply bind_OK_inv in Hrun as ([] & sc & _ & Hrun).
  injection Hrun as <- _. lia.
Qed.

(** ** Columns that cannot be scored *)

(** X13. A stage with zero trials cannot score a column: when the data of
    the column are prepared and at least two validation rows are there,
    [__process_each_column] raises ValueError (the position of the best of
    no scores), with the object as the preparation left it. *)
Theorem zero_trials_raise lib imputer model col ds ids (s s1 : MissMixed) :
  trials imputer = 0%nat →
  __dataset_preparation lib col s = (OK (ds, ids), s1) →
  (2 ≤ length (y_test ds))%nat →
  __process_each_column lib imputer model col s = (Raise ValueError, s1).
Proof.
  intros Htrials Hprep Hval. unfold __process_each_column.
  rewrite bind_unfold, Hprep. rewrite bool_decide_eq_true_2 by done.
  by rewrite Htrials.
Qed.

(** X14. A column with fewer than two validation rows is passed over: when
    the data of the column are prepared and the validation part has fewer
    than two rows, [__process_each_column] returns "not updated" with no
    scores, fits nothing and leaves the object as the preparation left
    it, the imputed table and the score board as they were. *)
Theorem short_validation_skips lib imputer model col ds ids (s s1 : MissMixed) :
  __dataset_preparation lib col s = (OK (ds, ids), s1) →
  (length (y_test ds) < 2)%nat →
  __process_each_column lib imputer model col s
    = (OK (false, {| cs_train := []; cs_val := [] |}), s1) ∧
  imputed_df s1 = imputed_df s ∧
  max_metric_tests s1 = max_metric_tests s.
Proof.
  intros Hprep Hval. split.
  - unfold __process_each_column.
    rewrite bind_unfold, Hprep. by rewrite bool_decide_eq_false_2 by lia.
  - pose proof (dataset_preparation_trace_only lib col s) as Ht.
    rewrite Hprep in Ht. simpl in Ht. by destruct Ht as [t ->].
Qed.

(** ** What an update reports and writes *)

Lemma positions_NoDup (p : cell → bool) (col : list cell) :
  NoDup (positions p col).
Proof.
  unfold positions.
  eapply sublist_NoDup; [|apply fmap_sublist, sublist_filter].
  rewrite fmap_imap.
  rewrite (imap_ext _ (λ j _, id j)) by done.
  rewrite (imap_seq_0 col id), list_fmap_id. apply NoDup_seq.
Qed.

Lemma loc_assign_lookup_in (col col' : list cell) (index : list nat)
    (values : list Float.t) (k r : nat) :
  loc_assign col index values = OK col' →
  NoDup index →
  index !! k = Some r →
  ∃ p, values !! k = Some p ∧ col' !! r = Some (Num p).
Proof.
  revert col values k. induction index as [|i index IH];
    intros col [|v values] k; simpl; try done.
  case_bool_decide as Hi; [|done].
  intros Hrest [Hnotin Hnd]%NoDup_cons Hk. destruct k as [|k]; simpl in *.
  - injection Hk as ->. exists v. split; [done|].
    rewrite (loc_assign_lookup_other _ _ _ _ _ Hrest Hnotin).
    by apply list_lookup_insert_eq.
  - by eapply IH.
Qed.

Lemma loc_assign_lengths (col col' : list cell) (index : list nat)
    (values : list Float.t) :
  loc_assign col index values = OK col' → length values = length index.
Proof.
  revert col values. induction index as [|i index IH]; intros col [|v values];
    simpl; try done.
  case_bool_decide; [|done]. intros Hrest. f_equal. by eapply IH.
Qed.

(** X15. When [__apply_best_model] returns, the model gave one prediction
    per missing row of the target, and each missing row of the column in
    the imputed table holds the prediction for that row, as the model
    gave it. *)
Theorem accepted_predictions_written model ids col (target : list cell)
    (preds : list Float.t) (s s' : MissMixed) :
  imp_y_index ids = positions isna target →
  model (imp_x ids) = OK preds →
  __apply_best_model model ids col s = (OK (), s') →
  length preds = length (imp_y_index ids) ∧
  ∀ k r, imp_y_index ids !! k = Some r →
         ∃ p, preds !! k = Some p ∧ imputed_cell s' col r = Some (Num p).
Proof.
  intros Hindex Hpreds. rewrite apply_best_model_run, Hpreds. cbv zeta.
  destruct (imputed_df s !! col) as [column|] eqn:Hcolumn; [|done].
  destruct (loc_assign column (imp_y_index ids) preds) as [column'|] eqn:Hassign;
    [|done].
  intros [= <-]. split; [by eapply loc_assign_lengths|].
  intros k r Hk.
  destruct (loc_assign_lookup_in _ _ _ _ k r Hassign) as (p & Hp & Hr);
    [rewrite Hindex; apply positions_NoDup|done|].
  exists p. split; [done|]. unfold imputed_cell. simpl.
  rewrite list_lookup_insert_eq by (by eapply lookup_lt_Some). done.
Qed.

(** X16. What [__process_each_column] reports is what happened.  When it
    returns "updated", the validation score it reports is strictly better,
    in the direction of the metric, than the score the board held for the
    column, and the board now holds it there and is otherwise as it was;
    when it returns "not updated", neither the board nor the imputed table
    has changed. *)
Theorem column_update_report lib imputer model col (dir : direction)
    (updated : bool) (score : column_score) (s s' : MissMixed) :
  direction_of (metric_direction s) = Some dir →
  __process_each_column lib imputer model col s = (OK (updated, score), s') →
  if updated then
    ∃ v old, cs_val score = [v] ∧
             max_metric_tests s !! col = Some old ∧
             better dir old v ∧
             max_metric_tests s' = <[col := v]> (max_metric_tests s)
  else max_metric_tests s' = max_metric_tests s ∧
       imputed_df s' = imputed_df s.
Proof.
  intros Hdir Hrun. unfold __process_each_column in Hrun.
  apply bind_OK_inv in Hrun as ([ds ids] & s1 & H1 & Hrun).
  pose proof (dataset_preparation_trace_only lib col s) as T1.
  rewrite H1 in T1. simpl in T1.
  case_bool_decide as Hlen.
  2:{ injection Hrun as <- _ <-. by destruct T1 as [t ->]. }
  apply bind_OK_inv in Hrun as (results & s2 & H2 & Hrun).
  pose proof (for_acc_trial_trace_only lib model col ds
                (seq 0 (trials imputer)) [] s1) as T2.
  rewrite H2 in T2. simpl in T2.
  apply bind_OK_inv in Hrun as (d & sa & Ha & Hrun). injection Ha as _ <-.
  apply bind_OK_inv in Hrun as (best_index & sb & Hb & Hrun).
  injection Hb as _ <-.
  apply bind_OK_inv in Hrun as (best & sc & Hc & Hrun). injection Hc as _ <-.
  apply bind_OK_inv in Hrun as ([] & s3 & H6 & Hrun).
  pose proof (log_trace_only 2 (MsgBest (tr_train best) (tr_val best)) s2) as T3.
  rewrite H6 in T3. simpl in T3.
  apply bind_OK_inv in Hrun as (ok & s4 & H7 & Hrun).
  assert (T : trace_only s s3) by (by etrans; [|etrans]).
  apply trace_only_fields in T as (Ti & Tb & Td).
  rewrite can_impute_run, Tb, Td in H7.
  destruct (max_metric_tests s !! col) as [old|]; [|done].
  destruct (Float.ltb _ _) eqn:Hlt.
  - injection H7 as <- <-.
    apply bind_OK_inv in Hrun as ([] & s5 & H8 & Hrun).
    apply bind_OK_inv in Hrun as ([] & s6 & H9 & Hrun).
    injection Hrun as <- <- <-.
    exists (tr_val best), old. split; [done|]. split; [done|].
    split; [by apply (gate_better _ _ _ _ Hdir)|].
    pose proof (log_trace_only 2 MsgColumnUpdated s5) as T4.
    rewrite H9 in T4. simpl in T4. destruct T4 as [t4 ->]. simpl.
    rewrite apply_best_model_run in H8. cbv zeta in H8.
    destruct (tr_model best _); [|done].
    destruct (imputed_df _ !! col); [|done].
    destruct (loc_assign _ _ _); [|done].
    by injection H8 as <-.
  - injection H7 as <- <-. by injection Hrun as <- _ <-.
Qed.

(** ** Result assembly *)

Lemma result_unfold (s : MissMixed) :
  result s =
  (for_ (seq 0 (num_of_columns s)) decode_column;;
   imputed ← gets imputed_df;
   scores ← gets max_metric_tests;
   mret (imputed, scores)) s.
Proof. reflexivity. Qed.

#[local] Instance imputed_only_preorder : PreOrder imputed_only.
Proof.
  split.
  - intros s. exists (imputed_df s). by destruct s.
  - intros s1 s2 s3 [v1 ->] [v2 ->]. by exists v2.
Qed.

(** What decoding one column does. *)
Lemma decode_column_OK (i : nat) (s s' : MissMixed) :
  decode_column i s = (OK (), s') →
  (categorical_columns s !! i = Some false ∧ s' = s) ∨
  (categorical_columns s !! i = Some true ∧
   ∃ encoder col codes decoded,
     column_to_encoder s !! i = Some encoder ∧
     imputed_df s !! i = Some col ∧
     res_mapM astype_int64 col = OK codes ∧
     LabelEncoder.inverse_transform encoder codes = OK decoded ∧
     s' = with_imputed_df (<[i := decoded]> (imputed_df s)) s).
Proof.
  unfold decode_column. intros Hrun.
  apply bind_OK_inv in Hrun as (flags & sa & Ha & Hrun). injection Ha as <- <-.
  apply bind_OK_inv in Hrun as (flag & sa & Ha & Hrun).
  unfold lift in Ha. injection Ha as Hflag <-.
  destruct (categorical_columns s !! i) as [flag'|]; [|done].
  injection Hflag as ->. destruct flag.
  - right. split; [done|].
    apply bind_OK_inv in Hrun as (encs & sa & Ha & Hrun). injection Ha as <- <-.
    apply bind_OK_inv in Hrun as (enc & sa & Ha & Hrun).
    unfold lift in Ha. injection Ha as Henc <-.
    apply bind_OK_inv in Hrun as (imp & sa & Ha & Hrun). injection Ha as <- <-.
    apply bind_OK_inv in Hrun as (col & sa & Ha & Hrun).
    unfold lift in Ha. injection Ha as Hcol <-.
    apply bind_OK_inv in Hrun as (codes & sa & Ha & Hrun).
    unfold lift in Ha. injection Ha as Hcodes <-.
    apply bind_OK_inv in Hrun as (decoded & sa & Ha & Hrun).
    unfold lift in Ha. injection Ha as Hdec <-.
    injection Hrun as <-.
    destruct (column_to_encoder s !! i); [|done]. injection Henc as ->.
    destruct (imputed_df s !! i); [|done]. injection Hcol as ->.
    by exists enc, col, codes, decoded.
  - left. by injection Hrun as <-.
Qed.

Lemma decode_loop (j k : nat) (s s' : MissMixed) :
  for_ (seq j k) decode_column s = (OK (), s') →
  imputed_only s s' ∧
  (∀ i, (i < j ∨ j + k ≤ i ∨ categorical_columns s !! i = Some false)%nat →
        imputed_df s' !! i = imputed_df s !! i) ∧
  (∀ i, (j ≤ i < j + k)%nat → categorical_columns s !! i = Some true →
        ∃ encoder col codes decoded,
          column_to_encoder s !! i = Some encoder ∧
          imputed_df s !! i = Some col ∧
          res_mapM astype_int64 col = OK codes ∧
          LabelEncoder.inverse_transform encoder codes = OK decoded ∧
          imputed_df s' !! i = Some decoded).
Proof.
  revert j s. induction k as [|k IH]; intros j s; simpl.
  - intros [= <-]. split; [reflexivity|]. split; [done|]. intros i ?. lia.
  - intros Hrun. apply bind_OK_inv in Hrun as ([] & s1 & Hstep & Hrun).
    apply IH in Hrun as (Honly & Hother & Hflagged).
    apply decode_column_OK in Hstep as [[Hflag ->]|(Hflag & Hdec)].
    + split; [done|]. split.
      * intros i [|[|]]; apply Hother;
          [left; lia|right; left; lia|by right; right].
      * intros i Hi Hf. apply Hflagged; [|done].
        destruct (decide (i = j)) as [->|]; [congruence|lia].
    + destruct Hdec as (enc & col & codes & decoded & Henc & Hcol & Hcodes
                        & Hdecoded & ->).
      split; [by etrans; [eexists|exact Honly]|]. simpl in *. split.
      * intros i Hi. rewrite Hother.
        -- apply list_lookup_insert_ne. intros ->.
           destruct Hi as [|[|]]; [lia|lia|congruence].
        -- destruct Hi as [|[|]]; [left; lia|right; left; lia|by right; right].
      * intros i Hi Hf. destruct (decide (i = j)) as [->|Hij].
        -- exists enc, col, codes, decoded. repeat split; try done.
           rewrite Hother by (left; lia).
           apply list_lookup_insert_eq. by eapply lookup_lt_Some.
        -- destruct (Hflagged i) as (e & c & cs & d & ? & Hc & ?); [lia|done|].
           exists e, c, cs, d.
           by rewrite list_lookup_insert_ne in Hc by done.
Qed.

(** X17. [result] decodes the columns flagged categorical and nothing
    else.  When it returns, the scores are the score board, the table is
    the imputed table of the object, nothing else in the object has
    changed, every column that is not flagged is as it was, and every
    flagged column is the inverse transform, by the encoder kept for its
    position, of its values cast to integers. *)
Theorem result_decodes_flagged_columns (s s' : MissMixed)
    (out : list (list cell)) (scores : list Float.t) :
  result s = (OK (out, scores), s') →
  scores = max_metric_tests s ∧
  out = imputed_df s' ∧
  imputed_only s s' ∧
  (∀ i, (num_of_columns s ≤ i)%nat ∨ categorical_columns s !! i = Some false →
        out !! i = imputed_df s !! i) ∧
  (∀ i, (i < num_of_columns s)%nat → categorical_columns s !! i = Some true →
        ∃ encoder col codes decoded,
          column_to_encoder s !! i = Some encoder ∧
          imputed_df s !! i = Some col ∧
          res_mapM astype_int64 col = OK codes ∧
          LabelEncoder.inverse_transform encoder codes = OK decoded ∧
          out !! i = Some decoded).
Proof.
  rewrite result_unfold. intros Hrun.
  apply bind_OK_inv in Hrun as ([] & s1 & Hloop & Hrun).
  injection Hrun as <- <- <-.
  apply decode_loop in Hloop as (Honly & Hother & Hflagged).
  split; [by destruct Honly as [v ->]|]. split; [done|]. split; [done|].
  split.
  - intros i Hi. apply Hother. destruct Hi; [right; left; lia|by right; right].
  - intros i Hi Hf. apply Hflagged; [lia|done].
Qed.

Lemma res_mapM_lookup {A B} (f : A → res B) (l : list A) (ys : list B)
    (r : nat) (x : A) :
  res_mapM f l = OK ys → l !! r = Some x →
  ∃ y, ys !! r = Some y ∧ f x = OK y.
Proof.
  revert ys r. induction l as [|x0 l IH]; intros ys r Hys Hr; [done|].
  apply res_mapM_OK_cons in Hys as (y & ys' & Hy & Hys' & ->).
  destruct r as [|r]; simpl in *.
  - injection Hr as ->. by exists y.
  - by eapply IH.
Qed.

(** X18. Observed categories come back.  Take a column flagged categorical
    and one of its observed values [v], as they are when
    [__process_categorical_data] starts.  In any later state of the object
    that has the flags and encoders of that step and whose imputed table
    still holds, at the place of [v], the code that the step wrote into the
    working table, a [result] that returns gives back [v] at that place. *)
Theorem observed_category_restored (s0 s1 s2 s3 : MissMixed) (i r : nat)
    (label : Z) (col : list cell) (v : cell) (out : list (list cell))
    (scores : list Float.t) :
  __process_categorical_data s0 = (OK (), s1) →
  categorical_columns s0 !! i = Some true →
  working_data s0 !! i = Some (label, col) →
  col !! r = Some v →
  notna v = true →
  categorical_columns s2 = categorical_columns s1 →
  column_to_encoder s2 = column_to_encoder s1 →
  (i < num_of_columns s2)%nat →
  imputed_cell s2 i r = (c ← working_data s1 !! i; c.2 !! r) →
  result s2 = (OK (out, scores), s3) →
  (c ← out !! i; c !! r) = Some v.
Proof.
  intros Hrun Hflag Hcol Hr Hv Hflags Hencs Hi Hcell Hres.
  destruct (process_categorical_data_encodes _ _ _ _ _ Hrun Hflag Hcol)
    as (encoder & codes & Hft & Henc & Hwd).
  destruct (column_round_trip col (fit_transform_uniform _ _ Hft))
    as (encoder' & codes' & Hft' & Hrt).
  rewrite Hft in Hft'. injection Hft' as <- <-.
  destruct (Hrt r v Hr Hv) as (c & Hc & _ & Hdec).
  rewrite Hwd in Hcell. simpl in Hcell. rewrite Hc in Hcell.
  pose proof (process_categorical_data_flags s0) as Hkept.
  rewrite Hrun in Hkept. hnf in Hkept. simpl in Hkept.
  apply result_decodes_flagged_columns in Hres as (_ & _ & _ & _ & Hflagged).
  destruct (Hflagged i Hi) as (enc & colx & codesx & decoded & Hencx & Hcolx
                               & Hcodesx & Hdecoded & Hout).
  { by rewrite Hflags, Hkept. }
  rewrite Hencs, Henc in Hencx. injection Hencx as <-.
  unfold imputed_cell in Hcell. rewrite Hcolx in Hcell. simpl in Hcell.
  destruct (res_mapM_lookup _ _ _ _ _ Hcodesx Hcell) as (n & Hn & Hcast).
  destruct (res_mapM_lookup _ _ _ _ _ Hdecoded Hn) as (y & Hy & Hdecode).
  rewrite Hout. simpl. rewrite Hy.
  rewrite Hcast in Hdec. simpl in Hdec. congruence.
Qed.

(** ** Construction *)

Lemma non_null_count_isna (col col' : list cell) :
  isna <$> col' = isna <$> col → non_null_count col' = non_null_count col.
Proof.
  revert col'. unfold non_null_count.
  induction col as [|c col IH]; intros [|c' col'] Heq; try done.
  injection Heq as Hc Hrest. specialize (IH _ Hrest).
  rewrite !filter_cons. unfold notna in *. rewrite Hc.
  destruct (decide (negb (isna c) = true)); simpl; by rewrite IH.
Qed.

Lemma trace_only_raw_data {A} (m : M A) :
  respects trace_only m → respects (kept raw_data) m.
Proof. apply respects_weaken. by intros s s' [t ->]. Qed.

Lemma process_categorical_data_raw :
  respects (kept raw_data) __process_categorical_data.
Proof.
  unfold __process_categorical_data, encode_column.
  kept_go @trace_only_raw_data.
Qed.

(** What a construction that goes through has done, step by step. *)
Lemma init_OK_inv lib raw seq flags name strat ts es k tol v (s : MissMixed) :
  __init__ lib raw seq flags name strat ts es k tol v = (OK (), s) →
  ∃ s1 s2 s3,
    __clean_working_data (new raw seq flags ts es k tol v) = (OK (), s1) ∧
    __process_categorical_data s1 = (OK (), s2) ∧
    initial_fill lib strat s2 = (OK (), s3) ∧
    __init_metrics name s3 = (OK (), s).
Proof.
  unfold __init__. intros Hrun.
  apply bind_OK_inv in Hrun as ([] & s1 & H1 & Hrun).
  apply bind_OK_inv in Hrun as ([] & s2 & H2 & Hrun).
  apply bind_OK_inv in Hrun as ([] & s3 & H3 & Hrun).
  by exists s1, s2, s3.
Qed.

Lemma initial_fill_OK lib strat (s s' : MissMixed) :
  initial_fill lib strat s = (OK (), s') →
  working_data s' = working_data s ∧ raw_data s' = raw_data s ∧
  num_of_columns s' = length (working_data s) ∧
  SimpleImputer_fit_transform lib strat (working_data s).*2 = OK (imputed_df s').
Proof.
  unfold initial_fill, mbind, M_bind, gets, modify, emit, lift. simpl.
  destruct (SimpleImputer_fit_transform lib strat _); [|done].
  by intros [= <-].
Qed.

Lemma init_metrics_OK name (s s' : MissMixed) :
  __init_metrics name s = (OK (), s') →
  name ∈ acceptable_metrics ∧
  working_data s' = working_data s ∧ raw_data s' = raw_data s ∧
  num_of_columns s' = num_of_columns s ∧ imputed_df s' = imputed_df s ∧
  ∃ dir, direction_of (metric_direction s') = Some dir ∧
         max_metric_tests s' = replicate (num_of_columns s) (worst dir).
Proof.
  unfold __init_metrics. case_bool_decide as Hname; [done|].
  intros [= <-]. simpl.
  repeat split; try done.
  case_bool_decide; [by exists maximize|by exists minimize].
Qed.

(** X19. What a construction that returns has established: the metric is
    one of the two supported ones; the raw table is the one given; every
    column of the working table has at least two observed values; the
    number of columns is that of the working table; the imputed table is
    what the initial fill made of the working table; and the score board
    has one entry per column, each the worst score of the direction. *)
Theorem construction_establishes lib raw seq flags name strat ts es k tol v
    (s : MissMixed) :
  __init__ lib raw seq flags name strat ts es k tol v = (OK (), s) →
  name ∈ acceptable_metrics ∧
  raw_data s = raw ∧
  Forall (λ c, (2 ≤ non_null_count c.2)%nat) (working_data s) ∧
  num_of_columns s = length (working_data s) ∧
  SimpleImputer_fit_transform lib strat (working_data s).*2
    = OK (imputed_df s) ∧
  ∃ dir, direction_of (metric_direction s) = Some dir ∧
         max_metric_tests s = replicate (length (working_data s)) (worst dir).
Proof.
  intros (s1 & s2 & s3 & Hclean & Hcat & Hfill & Hmetrics)%init_OK_inv.
  apply init_metrics_OK in Hmetrics
    as (Hname & Hwd3 & Hraw3 & Hn3 & Himp3 & dir & Hdir & Hboard).
  apply initial_fill_OK in Hfill as (Hwd2 & Hraw2 & Hn2 & Hfilled).
  pose proof (process_categorical_data_raw s1) as Hraw1.
  rewrite Hcat in Hraw1. hnf in Hraw1. simpl in Hraw1.
  destruct (encoding_keeps_missingness _ _ Hcat) as [Hlen Hcols].
  apply cleaning_keeps_trainable_columns in Hclean as (Hall & _ & Hraw0).
  split; [done|]. split; [by rewrite Hraw3, Hraw2, Hraw1, Hraw0|].
  split; [|split; [congruence|split; [by rewrite Hwd3, Himp3, Hwd2|]]].
  - rewrite Hwd3, Hwd2. apply Forall_lookup. intros i [label col'] Hi.
    destruct (working_data s1 !! i) as [[label1 col]|] eqn:H1.
    + destruct (Hcols i label1 col H1) as (col'' & Hi' & Hna).
      pose proof (eq_trans (eq_sym Hi') Hi) as Heq. injection Heq as -> ->.
      simpl.
      rewrite (non_null_count_isna _ _ Hna).
      by apply (Forall_lookup_1 _ _ _ _ Hall H1).
    + apply lookup_lt_Some in Hi. apply lookup_ge_None in H1. lia.
  - exists dir. split; [done|]. rewrite Hboard. f_equal. congruence.
Qed.

(** X20. The score board keeps one entry per column through a run: if it
    has as many entries as the object has columns, it still has after
    [fit_transform], whether that returns or raises. *)
Theorem board_keeps_one_entry_per_column (lib : Library) (s : MissMixed) :
  length (max_metric_tests s) = num_of_columns s →
  length (max_metric_tests (fit_transform lib s).2)
    = num_of_columns (fit_transform lib s).2.
Proof.
  intros Hlen.
  destruct (fit_transform_improves lib s) as [_ Hboard].
  apply Forall2_length in Hboard.
  pose proof (fit_transform_keeps_configuration lib s) as Hconf.
  unfold configuration in Hconf. injection Hconf as _ _ _ _ Hn _ _.
  congruence.
Qed.

(** ** Stages of a run *)

Section emits.
Context (lib : Library) (R : relation MissMixed) `{!PreOrder R}.
Hypothesis R_emit : ∀ e s, R s (with_trace (trace s ++ [e]) s).
Hypothesis R_board : ∀ v s, R s (with_max_metric_tests v s).
Hypothesis R_shared : ∀ v s, R s (with_shared v s).
Hypothesis R_metric : ∀ v s, R s (with_metric v s).
Hypothesis R_imputed : ∀ v s, R s (with_imputed_df v s).

Ltac emits_go :=
  repeat first
    [ solve [eauto 2]
    | progress cbv zeta
    | respects_step ];
  first [apply R_emit | apply R_board | apply R_shared | apply R_metric
        | apply R_imputed].

Lemma emit_emits e : respects R (emit e).
Proof. intros s. apply R_emit. Qed.

Lemma log_emits level e : respects R (_log level e).
Proof. pose proof emit_emits. unfold _log. emits_go. Qed.

Lemma normalize_emits df_x : respects R (__normalize lib df_x).
Proof. intros s. rewrite normalize_run. reflexivity. Qed.

Lemma check_early_stopping_emits counts :
  respects R (__check_early_stopping counts).
Proof. intros s. rewrite check_early_stopping_run. reflexivity. Qed.

Lemma process_each_column_emits imputer model col :
  respects R (__process_each_column lib imputer model col).
Proof.
  pose proof emit_emits. pose proof log_emits. pose proof normalize_emits.
  unfold __process_each_column, __dataset_preparation, trial,
    __apply_best_model, __can_impute.
  emits_go.
Qed.

Lemma fit_transform_emits : respects R (fit_transform lib).
Proof.
  pose proof emit_emits. pose proof log_emits.
  pose proof check_early_stopping_emits.
  pose proof process_each_column_emits.
  unfold fit_transform, iteration, __process_each_imputer, process_column,
    __set_metric, __can_impute.
  emits_go.
Qed.

Lemma iteration_rest_emits imputer counts :
  respects R
    (count ← __process_each_imputer lib imputer;
     _log 1 (MsgColumnsUpdated count);;
     _log 1 MsgRule;;
     let updated_columns_count := counts ++ [count] in
     stop ← __check_early_stopping updated_columns_count;
     (if stop : bool then emit MsgEarlyStopping else mret ());;
     mret updated_columns_count).
Proof.
  pose proof emit_emits. pose proof log_emits.
  pose proof check_early_stopping_emits.
  pose proof process_each_column_emits.
  unfold __process_each_imputer, process_column, __set_metric, __can_impute.
  emits_go.
Qed.

Lemma iteration_loop_emits total l acc :
  respects R (for_acc l acc (iteration lib total)).
Proof.
  pose proof emit_emits. pose proof log_emits.
  pose proof check_early_stopping_emits.
  pose proof process_each_column_emits.
  unfold iteration, __process_each_imputer, process_column, __set_metric,
    __can_impute.
  emits_go.
Qed.

End emits.

#[local] Instance trace_grows_preorder : PreOrder trace_grows.
Proof.
  split.
  - by intros s.
  - intros s1 s2 s3 [Hv12 Ht12] [Hv23 Ht23]. split; [congruence|by etrans].
Qed.

Lemma trace_grows_emit (e : event) (s : MissMixed) :
  trace_grows s (with_trace (trace s ++ [e]) s).
Proof. split; [done|]. by eexists. Qed.

Lemma trace_grows_board v s : trace_grows s (with_max_metric_tests v s).
Proof. done. Qed.

Lemma trace_grows_shared v s : trace_grows s (with_shared v s).
Proof. done. Qed.

Lemma trace_grows_metric v s : trace_grows s (with_metric v s).
Proof. done. Qed.

Lemma trace_grows_imputed v s : trace_grows s (with_imputed_df v s).
Proof. done. Qed.

Lemma trace_grows_elem (e : event) (s s' : MissMixed) :
  trace_grows s s' → e ∈ trace s → e ∈ trace s'.
Proof. intros [_ [t ->]] He. apply elem_of_app. by left. Qed.

Lemma iteration_loop_reports lib total (j : nat) (l : list Imputer)
    (acc acc' : list nat) (s s' : MissMixed) :
  (1 ≤ verbose s)%nat →
  for_acc (imap (λ i, pair (j + i)%nat) l) acc (iteration lib total) s
    = (OK acc', s') →
  ∀ k, (k < length l)%nat → MsgIteration (j + k + 1) total ∈ trace s'.
Proof.
  revert j acc s. induction l as [|x l IH]; intros j acc s Hv Hrun k Hk;
    simpl in Hk; [lia|].
  rewrite imap_cons in Hrun. simpl in Hrun.
  apply bind_OK_inv in Hrun as (acc1 & s1 & Hstep & Hrun).
  rewrite (imap_ext _ (λ i, pair (S j + i)%nat)) in Hrun
    by (intros; simpl; f_equal; lia).
  unfold iteration in Hstep. simpl in Hstep.
  apply bind_OK_inv in Hstep as ([] & sa & Hlog & Hstep).
  unfold _log in Hlog. rewrite bind_unfold in Hlog. simpl in Hlog.
  rewrite bool_decide_eq_true_2 in Hlog by done. injection Hlog as <-.
  pose proof (iteration_rest_emits lib trace_grows trace_grows_emit
                trace_grows_board trace_grows_shared
                trace_grows_metric trace_grows_imputed x acc
                (with_trace (trace s ++ [MsgIteration (j + 0 + 1) total]) s))
    as Hrest.
  cbv zeta in Hrest. rewrite Hstep in Hrest. simpl in Hrest.
  pose proof (iteration_loop_emits lib trace_grows trace_grows_emit
                trace_grows_board trace_grows_shared
                trace_grows_metric trace_grows_imputed total
                (imap (λ i, pair (S j + i)%nat) l) acc1 s1) as Hloop.
  rewrite Hrun in Hloop. simpl in Hloop.
  destruct k as [|k].
  - apply (trace_grows_elem _ s1 s' Hloop).
    apply (trace_grows_elem _ _ s1 Hrest). simpl.
    apply elem_of_app. right. by apply list_elem_of_singleton.
  - replace (j + S k + 1)%nat with (S j + k + 1)%nat by lia.
    eapply (IH (S j) acc1 s1); [|done|lia].
    destruct Hrest as [-> _]. done.
Qed.

(** X21. A run that returns has gone through every stage of the sequence,
    whatever the early-stopping rule said on the way: with verbosity 1 or
    more, the line "Iteration i/n" of every stage [i] of the [n] stages is
    among what was printed. *)
Theorem every_stage_is_processed (lib : Library) (s s' : MissMixed) (i : nat) :
  (1 ≤ verbose s)%nat →
  fit_transform lib s = (OK (), s') →
  (i < length (sequential s))%nat →
  MsgIteration (i + 1) (length (sequential s)) ∈ trace s'.
Proof.
  intros Hv Hrun Hi. unfold fit_transform in Hrun.
  apply bind_OK_inv in Hrun as (imputers & sa & Ha & Hrun).
  injection Ha as <- <-.
  apply bind_OK_inv in Hrun as (counts & sb & Hloop & Hrun).
  injection Hrun as <-.
  rewrite (imap_ext _ (λ i, pair (0 + i)%nat)) in Hloop by done.
  by apply (iteration_loop_reports lib _ 0 _ _ _ _ _ Hv Hloop i).
Qed.

(** ** Normalisation of the features *)

Lemma normalize_column lib (df_x out : list (list cell)) (s s' : MissMixed)
    (i : nat) (col : list cell) :
  SharedData_is_categorical lib (shared s) = false →
  __normalize lib df_x s = (OK out, s') →
  df_x !! i = Some col →
  ∃ col', out !! i = Some col' ∧ min_max_scale col = OK col'.
Proof.
  intros Hcat. rewrite normalize_run, Hcat. intros [= Hout _] Hcol.
  by eapply res_mapM_lookup.
Qed.

Lemma as_floats_numbers (qs : list Qc) :
  as_floats (numbers qs) = OK (Float.Fin <$> qs).
Proof.
  unfold as_floats, numbers. induction qs as [|q qs IH]; [done|].
  rewrite !fmap_cons. simpl. by rewrite IH.
Qed.

Lemma min_max_scale_numbers (qs : list Qc) :
  min_max_scale (numbers qs) =
  OK ((λ q, Num (Float.mul
                   (Float.div (Float.sub (Float.Fin q)
                                         (Float.min_skipna (Float.Fin <$> qs)))
                              (Float.sub (Float.max_skipna (Float.Fin <$> qs))
                                         (Float.min_skipna (Float.Fin <$> qs))))
                   (Float.of_Z 10))) <$> qs).
Proof.
  unfold min_max_scale. rewrite as_floats_numbers. simpl. f_equal.
  generalize (Float.min_skipna (Float.Fin <$> qs)).
  generalize (Float.max_skipna (Float.Fin <$> qs)).
  intros mx mn. induction qs as [|q qs IH]; [done|].
  rewrite !fmap_cons. cbn [map]. f_equal. exact IH.
Qed.

Lemma min_skipna_numbers (qs : list Qc) :
  qs ≠ [] →
  ∃ m, Float.min_skipna (Float.Fin <$> qs) = Float.Fin m ∧ m ∈ qs ∧
       ∀ q, q ∈ qs → (m ≤ q)%Qc.
Proof.
  induction qs as [|q qs IH]; [done|]. intros _.
  rewrite fmap_cons. unfold Float.min_skipna. simpl.
  fold (Float.min_skipna (Float.Fin <$> qs)).
  destruct qs as [|q' qs'].
  { exists q. split; [done|]. split; [by left|].
    intros x ->%list_elem_of_singleton. apply Qcle_refl. }
  destruct IH as (m & -> & Hm & Hmin); [done|]. simpl.
  case_bool_decide as Hlt.
  - exists q. split; [done|]. split; [by left|].
    intros x [->|Hx]%elem_of_cons; [apply Qcle_refl|].
    eapply Qcle_trans; [by apply Qclt_le_weak|by apply Hmin].
  - exists m. split; [done|]. split; [by right|].
    intros x [->|Hx]%elem_of_cons; [by apply Qcnot_lt_le|by apply Hmin].
Qed.

Lemma max_skipna_numbers (qs : list Qc) :
  qs ≠ [] →
  ∃ m, Float.max_skipna (Float.Fin <$> qs) = Float.Fin m ∧ m ∈ qs ∧
       ∀ q, q ∈ qs → (q ≤ m)%Qc.
Proof.
  induction qs as [|q qs IH]; [done|]. intros _.
  rewrite fmap_cons. unfold Float.max_skipna. simpl.
  fold (Float.max_skipna (Float.Fin <$> qs)).
  destruct qs as [|q' qs'].
  { exists q. split; [done|]. split; [by left|].
    intros x ->%list_elem_of_singleton. apply Qcle_refl. }
  destruct IH as (m & -> & Hm & Hmax); [done|]. simpl.
  case_bool_decide as Hlt.
  - exists q. split; [done|]. split; [by left|].
    intros x [->|Hx]%elem_of_cons; [apply Qcle_refl|].
    eapply Qcle_trans; [by apply Hmax|by apply Qclt_le_weak].
  - exists m. split; [done|]. split; [by right|].
    intros x [->|Hx]%elem_of_cons; [by apply Qcnot_lt_le|by apply Hmax].
Qed.

Lemma min_max_scale_constant (c : Qc) (n : nat) :
  min_max_scale (numbers (replicate (S n) c)) =
  OK (replicate (S n) (Num Float.NaN)).
Proof.
  rewrite min_max_scale_numbers.
  destruct (min_skipna_numbers (replicate (S n) c)) as (mn & -> & Hmn & _);
    [done|].
  destruct (max_skipna_numbers (replicate (S n) c)) as (mx & -> & Hmx & _);
    [done|].
  apply elem_of_replicate in Hmn as [-> _].
  apply elem_of_replicate in Hmx as [-> _].
  f_equal. generalize (S n). intros k.
  induction k as [|k IH]; [done|].
  cbn [replicate]. rewrite fmap_cons, IH. f_equal. f_equal.
  unfold Float.sub, Float.div.
  assert (c - c = 0)%Qc as -> by apply Qcplus_opp_r.
  by rewrite decide_True.
Qed.

(** X22 ([__normalize], lines 386-407).  A numerical feature column that
    holds one and the same finite number in every row is scaled to a
    column of NaN: its maximum equals its minimum, so every cell becomes
    [0 / 0]. *)
Theorem constant_feature_becomes_nan lib (df_x out : list (list cell))
    (s s' : MissMixed) (i n : nat) (c : Qc) :
  SharedData_is_categorical lib (shared s) = false →
  __normalize lib df_x s = (OK out, s') →
  df_x !! i = Some (numbers (replicate (S n) c)) →
  out !! i = Some (replicate (S n) (Num Float.NaN)).
Proof.
  intros Hcat Hrun Hcol.
  destruct (normalize_column _ _ _ _ _ _ _ Hcat Hrun Hcol)
    as (col' & Hout & Hscale).
  rewrite min_max_scale_constant in Hscale. by injection Hscale as <-.
Qed.

Lemma scaled_range (mn mx q : Qc) :
  (mn < mx)%Qc → (mn ≤ q)%Qc → (q ≤ mx)%Qc →
  (0 ≤ (q - mn) / (mx - mn) * Qc_of_Z 10 ∧
   (q - mn) / (mx - mn) * Qc_of_Z 10 ≤ Qc_of_Z 10)%Qc.
Proof.
  intros Hlt Hlo Hhi.
  assert (0 < mx - mn)%Qc as Hd by by apply Qclt_minus_iff in Hlt.
  assert (0 ≤ q - mn)%Qc as Ha by by apply Qcle_minus_iff in Hlo.
  assert (q - mn ≤ mx - mn)%Qc as Hle by by apply Qcplus_le_mono_r.
  assert (0 ≤ / (mx - mn))%Qc as Hinv
    by by apply Qclt_le_weak, Qcinv_pos.
  assert (0 ≤ Qc_of_Z 10)%Qc as Hten by by_evaluation.
  assert (0 ≤ (q - mn) / (mx - mn))%Qc as Ht
    by by apply Qcmult_nonneg_nonneg.
  assert ((q - mn) / (mx - mn) ≤ 1)%Qc as Ht1.
  { rewrite <-(Qcmult_inv_r (mx - mn)) by by apply Qclt_not_eq in Hd.
    by apply Qcmult_le_mono_nonneg_r. }
  split; [by apply Qcmult_nonneg_nonneg|].
  rewrite <-(Qcmult_1_l (Qc_of_Z 10)) at 2.
  by apply Qcmult_le_mono_nonneg_r.
Qed.

Lemma scaled_min (mn mx : Qc) :
  ((mn - mn) / (mx - mn) * Qc_of_Z 10 = 0)%Qc.
Proof.
  assert (mn - mn = 0)%Qc as -> by apply Qcplus_opp_r.
  unfold Qcdiv. by rewrite !Qcmult_0_l.
Qed.

Lemma scaled_max (mn mx : Qc) :
  (mn < mx)%Qc →
  ((mx - mn) / (mx - mn) * Qc_of_Z 10 = Qc_of_Z 10)%Qc.
Proof.
  intros Hlt.
  assert (0 < mx - mn)%Qc as Hd by by apply Qclt_minus_iff in Hlt.
  unfold Qcdiv. rewrite Qcmult_inv_r, Qcmult_1_l; [done|].
  intros Heq. rewrite Heq in Hd. by apply Qclt_not_eq in Hd.
Qed.

Lemma min_max_scale_range (qs : list Qc) (a b : Qc) :
  a ∈ qs → b ∈ qs → (a < b)%Qc →
  ∃ ys, min_max_scale (numbers qs) = OK (numbers ys) ∧
        length ys = length qs ∧
        Forall (λ y, (0 ≤ y ∧ y ≤ Qc_of_Z 10)%Qc) ys ∧
        0%Qc ∈ ys ∧ Qc_of_Z 10 ∈ ys.
Proof.
  intros Ha Hb Hab.
  assert (qs ≠ []) as Hne by (intros ->; by apply elem_of_nil in Ha).
  rewrite min_max_scale_numbers.
  destruct (min_skipna_numbers qs Hne) as (mn & -> & Hmn & Hmin).
  destruct (max_skipna_numbers qs Hne) as (mx & -> & Hmx & Hmax).
  assert (mn < mx)%Qc as Hlt.
  { apply (Qcle_lt_trans _ a); [by apply Hmin|].
    apply (Qclt_le_trans _ b); [exact Hab|by apply Hmax]. }
  assert (mx - mn ≠ 0)%Qc as Hd.
  { apply Qclt_minus_iff in Hlt. intros Heq.
    change (0 < mx - mn)%Qc in Hlt. rewrite Heq in Hlt.
    by apply Qclt_not_eq in Hlt. }
  exists ((λ q, (q - mn) / (mx - mn) * Qc_of_Z 10)%Qc <$> qs).
  split; [|split; [|split; [|split]]].
  - f_equal. unfold numbers. rewrite <-list_fmap_compose.
    apply list_fmap_ext. intros _ q _. simpl.
    unfold Float.div, Float.sub, Float.mul, Float.of_Z.
    by rewrite decide_False.
  - apply length_fmap.
  - apply Forall_fmap, Forall_forall. intros q Hq. simpl.
    apply scaled_range; [done|by apply Hmin|by apply Hmax].
  - apply list_elem_of_fmap. exists mn. split; [|done].
    symmetry. apply scaled_min.
  - apply list_elem_of_fmap. exists mx. split; [|done].
    symmetry. by apply scaled_max.
Qed.

(** X23 ([__normalize], lines 386-407).  A numerical feature column of
    finite numbers that holds two different values is scaled into the
    interval from 0 to 10: the result has the same number of rows, every
    cell is a finite number between 0 and 10, and both ends are reached. *)
Theorem scaled_features_between_zero_and_ten lib (df_x out : list (list cell))
    (s s' : MissMixed) (i : nat) (qs : list Qc) (a b : Qc) :
  SharedData_is_categorical lib (shared s) = false →
  __normalize lib df_x s = (OK out, s') →
  df_x !! i = Some (numbers qs) →
  a ∈ qs → b ∈ qs → (a < b)%Qc →
  ∃ ys, out !! i = Some (numbers ys) ∧
        length ys = length qs ∧
        Forall (λ y, (0 ≤ y ∧ y ≤ Qc_of_Z 10)%Qc) ys ∧
        0%Qc ∈ ys ∧ Qc_of_Z 10 ∈ ys.
Proof.
  intros Hcat Hrun Hcol Ha Hb Hab.
  destruct (normalize_column _ _ _ _ _ _ _ Hcat Hrun Hcol)
    as (col' & Hout & Hscale).
  destruct (min_max_scale_range qs a b Ha Hb Hab) as (ys & Hys & Hrest).
  exists ys. split; [|exact Hrest].
  rewrite Hys in Hscale. by injection Hscale as <-.
Qed.
